(** * usrp3/tools/scripts/make.py: the RFNoC instantiation generator

    A shallow embedding of the script: the template renderer
    [create_vfiles], the file writer [file_generator], the include-merge
    step [append_item_into_file], the build step [build] and [main].

    Python [str] is [string]; Python [int] is [Z]; a [dict] with string
    keys is a [gmap string _] and [set(blocks)] a [gset string].  The file
    system is a finite map from path strings to file contents (text as
    [read()] delivers it); reading a path that is not in the map raises
    [IOError]; writing replaces or creates the entry, which is what
    [open(path, 'w')] does when the file exists or its directory does (a
    path in a missing directory, where [open] raises, is outside the
    model, and the statements about written files assume the file is
    there to be replaced or the directory exists).  [print] appends one
    entry to [stdout]; [exit(n)] and an uncaught exception end the
    computation with that outcome.  What the script asks of the operating
    system ([glob.glob], [os.path.isdir], [os.system], the place of the
    script) is a parameter of the model. *)

From stdpp Require Import base strings gmap list pretty.
From Stdlib Require Import ZArith Ascii Lia.

Local Open Scope Z_scope.

(** ** Python string primitives used by the script *)

Module PyStr.

Definition nl : string := String "010"%char "".

(** [c.lower()] for ASCII text: the letters [A]..[Z] are lowered, every
    other character is kept.  ([str.lower()] also lowers capitals
    outside ASCII; no such character lowers into a device name of the
    script's tables.) *)
Definition lower_ascii (c : ascii) : ascii :=
  let n := nat_of_ascii c in
  if (Nat.leb 65 n && Nat.leb n 90)%bool then ascii_of_nat (n + 32)%nat else c.

Fixpoint lower (s : string) : string :=
  match s with
  | "" => ""
  | String c s' => String (lower_ascii c) (lower s')
  end.

(** ["".join(l)] *)
Fixpoint join (l : list string) : string :=
  match l with
  | [] => ""
  | x :: l' => x +:+ join l'
  end.

(** [s.startswith(p)] *)
Fixpoint startswith (p s : string) : bool :=
  match p, s with
  | "", _ => true
  | String a p', String b s' => if decide (a = b) then startswith p' s' else false
  | String _ _, "" => false
  end.

(** [s.endswith("/")] *)
Fixpoint ends_with_slash (s : string) : bool :=
  match s with
  | "" => false
  | String c "" => if decide (c = "/"%char) then true else false
  | String _ s' => ends_with_slash s'
  end.

(** [re.findall(re.escape(pat), s)]: the escaped pattern matches [pat]
    literally, so the result lists [pat] once per non-overlapping
    occurrence, scanning left to right.  [skip] counts the characters of
    a match still to be stepped over.  (All patterns of the script are
    non-empty.) *)
Fixpoint findall_go (pat : string) (skip : nat) (s : string) : list string :=
  match s with
  | "" => []
  | String _ s' =>
      match skip with
      | S k => findall_go pat k s'
      | O => if startswith pat s
             then pat :: findall_go pat (String.length pat - 1) s'
             else findall_go pat 0 s'
      end
  end.

Definition findall (pat s : string) : list string := findall_go pat 0 s.

(** [s.replace(old, new)]: every non-overlapping occurrence of [old],
    left to right, is replaced. *)
Fixpoint replace_go (old new : string) (skip : nat) (s : string) : string :=
  match s with
  | "" => ""
  | String c s' =>
      match skip with
      | S k => replace_go old new k s'
      | O => if startswith old s
             then new +:+ replace_go old new (String.length old - 1) s'
             else String c (replace_go old new 0 s')
      end
  end.

(** With an empty [old], Python puts [new] before every character and
    at the end. *)
Fixpoint intersperse (new s : string) : string :=
  match s with
  | "" => new
  | String c s' => new +:+ String c (intersperse new s')
  end.

Definition replace (old new s : string) : string :=
  match old with
  | "" => intersperse new s
  | _ => replace_go old new 0 s
  end.

(** [f.readlines()]: the text cut after every newline; a last line
    without newline is kept as it is. *)
Fixpoint readlines_go (cur : string) (s : string) : list string :=
  match s with
  | "" => match cur with "" => [] | _ => [String.rev cur] end
  | String c s' =>
      if decide (c = "010"%char)
      then String.rev (String c cur) :: readlines_go "" s'
      else readlines_go (String c cur) s'
  end.

Definition readlines (s : string) : list string := readlines_go "" s.

(** [re.escape] (Python 3.7 and later): a backslash before each special
    character. *)
Definition re_special (c : ascii) : bool :=
  bool_decide (c ∈ String.list_ascii_of_string "()[]{}?*+-|^$\.&~# ")
  || bool_decide (c ∈ ["009"; "010"; "011"; "012"; "013"]%char).

Fixpoint re_escape (s : string) : string :=
  match s with
  | "" => ""
  | String c s' =>
      if re_special c then String "\"%char (String c (re_escape s'))
      else String c (re_escape s')
  end.

(** [os.path.join(a, *p)] on POSIX. *)
Definition path_join2 (path b : string) : string :=
  if startswith "/" b then b
  else if (bool_decide (path = "") || ends_with_slash path)%bool then path +:+ b
  else path +:+ "/" +:+ b.

Definition path_join (a : string) (p : list string) : string :=
  foldl path_join2 a p.

(** ["%s" % x] for an optional string: [None] prints as [None]. *)
Definition str_opt (o : option string) : string :=
  match o with Some s => s | None => "None" end.

End PyStr.

Arguments PyStr.replace : simpl never.
Arguments PyStr.findall : simpl never.
Arguments PyStr.readlines : simpl never.

(** ** The three templates *)

Definition HEADER_TMPL (num_ce : Z) : string :=
"/////////////////////////////////////////////////////////
// Auto-generated by gen_rfnoc_inst.py! Any changes
// in this file will be overwritten the next time
// this script is run.
/////////////////////////////////////////////////////////
localparam NUM_CE = " +:+ pretty num_ce +:+ ";
wire [NUM_CE*64-1:0] ce_flat_o_tdata, ce_flat_i_tdata;
wire [63:0]          ce_o_tdata[0:NUM_CE-1], ce_i_tdata[0:NUM_CE-1];
wire [NUM_CE-1:0]    ce_o_tlast, ce_o_tvalid, ce_o_tready, ce_i_tlast, ce_i_tvalid, ce_i_tready;
wire [63:0]          ce_debug[0:NUM_CE-1];
// Flattern CE tdata arrays
genvar k;
generate
  for (k = 0; k < NUM_CE; k = k + 1) begin
    assign ce_o_tdata[k] = ce_flat_o_tdata[k*64+63:k*64];
    assign ce_flat_i_tdata[k*64+63:k*64] = ce_i_tdata[k];
  end
endgenerate
wire ce_clk = radio_clk;
wire ce_rst = radio_rst;
".

Definition BLOCK_TMPL (blockname instname : string) (n : Z) : string :=
"
noc_block_" +:+ blockname +:+ " " +:+ instname +:+ " (
  .bus_clk(bus_clk), .bus_rst(bus_rst),
  .ce_clk(ce_clk), .ce_rst(ce_rst),
  .i_tdata(ce_o_tdata[" +:+ pretty n +:+ "]), .i_tlast(ce_o_tlast[" +:+ pretty n
  +:+ "]), .i_tvalid(ce_o_tvalid[" +:+ pretty n +:+ "]), .i_tready(ce_o_tready["
  +:+ pretty n +:+ "]),
  .o_tdata(ce_i_tdata[" +:+ pretty n +:+ "]), .o_tlast(ce_i_tlast[" +:+ pretty n
  +:+ "]), .o_tvalid(ce_i_tvalid[" +:+ pretty n +:+ "]), .o_tready(ce_i_tready["
  +:+ pretty n +:+ "]),
  .debug(ce_debug[" +:+ pretty n +:+ "])
);
".

Definition FILL_FIFO_TMPL (fifo_start : Z) : string :=
"
// Fill remaining crossbar ports with loopback FIFOs
genvar n;
generate
  for (n = " +:+ pretty fifo_start +:+ "; n < NUM_CE; n = n + 1) begin
    noc_block_axi_fifo_loopback inst_noc_block_axi_fifo_loopback (
      .bus_clk(bus_clk), .bus_rst(bus_rst),
      .ce_clk(ce_clk), .ce_rst(ce_rst),
      .i_tdata(ce_o_tdata[n]), .i_tlast(ce_o_tlast[n]), .i_tvalid(ce_o_tvalid[n]), .i_tready(ce_o_tready[n]),
      .o_tdata(ce_i_tdata[n]), .o_tlast(ce_i_tlast[n]), .o_tvalid(ce_i_tvalid[n]), .o_tready(ce_i_tready[n]),
      .debug(ce_debug[n])
    );
  end
endgenerate
".

(** ** Command line arguments, as [argparse] delivers them

    Without positional argument [args.blocks] is the default [""], of
    length 0 like the empty list that stands for it here. *)

Record Args := {
  include_dir : option (list string);
  max_num_blocks : Z;
  fill_with_fifos : bool;
  outfile : option string;
  device : string;
  target : option string;
  GUI : bool;
  blocks : list string
}.

(** ** Outcomes and the process state *)

Inductive exn :=
| KeyError (key : string)
| IOError (path : string)
| UnboundLocalError (name : string).

Inductive outcome (A : Type) :=
| Ret (a : A)
| Exit (code : Z)
| Raise (e : exn).
Arguments Ret {A} a.
Arguments Exit {A} code.
Arguments Raise {A} e.

Global Instance outcome_ret : MRet outcome := λ A a, Ret a.

Global Instance outcome_bind : MBind outcome := λ A B k o,
  match o with
  | Ret a => k a
  | Exit c => Exit c
  | Raise e => Raise e
  end.

Record World := {
  fs : gmap string string;
  stdout : list string;
  cwd : string
}.

Definition M (A : Type) : Type := World → outcome A * World.

Global Instance M_ret : MRet M := λ A a w, (Ret a, w).

Global Instance M_bind : MBind M := λ A B k m w,
  match m w with
  | (Ret a, w') => k a w'
  | (Exit c, w') => (Exit c, w')
  | (Raise e, w') => (Raise e, w')
  end.

(** A computation that does not touch the process state. *)
Definition lift {A} (o : outcome A) : M A := λ w, (o, w).

Definition exit {A} (code : Z) : M A := λ w, (Exit code, w).
Definition raise {A} (e : exn) : M A := λ w, (Raise e, w).

Definition print (line : string) : M unit := λ w,
  (Ret (), {| fs := fs w; stdout := stdout w ++ [line]; cwd := cwd w |}).

(** [open(path, 'r').read()] *)
Definition read_file (path : string) : M string := λ w,
  match fs w !! path with
  | Some txt => (Ret txt, w)
  | None => (Raise (IOError path), w)
  end.

(** [open(path, 'w').write(txt)], for a path that can be opened for
    writing (the file exists or its directory does). *)
Definition write_file (path txt : string) : M unit := λ w,
  (Ret (), {| fs := <[path := txt]> (fs w); stdout := stdout w; cwd := cwd w |}).

(** [os.chdir(path)] *)
Definition chdir (path : string) : M unit := λ w,
  (Ret (), {| fs := fs w; stdout := stdout w; cwd := path |}).

(** [d[k]] *)
Definition getitem {V} (d : gmap string V) (k : string) : outcome V :=
  match d !! k with
  | Some v => Ret v
  | None => Raise (KeyError k)
  end.

(** ** create_vfiles *)

(** The first three statements of the loop body: the counter update and
    the instance name. *)
Definition next_instname (block_count : gmap string Z) (block : string)
  : outcome (gmap string Z * string) :=
  c ← getitem block_count block;
  let block_count := <[block := c + 1]> block_count in
  c1 ← getitem block_count block;
  suffix ← (if decide (c1 = 1) then mret ""
            else c2 ← getitem block_count block; mret (pretty c2));
  mret (block_count, "inst_" +:+ block +:+ suffix).

(** [for i, block in enumerate(blocks): ...] *)
Fixpoint for_blocks (i : Z) (blocks : list string)
    (block_count : gmap string Z) (vfile : string) : M string :=
  match blocks with
  | [] => mret vfile
  | block :: rest =>
      '(block_count, instname) ← lift (next_instname block_count block);
      print ("    * " +:+ block);;
      for_blocks (i + 1) rest block_count (vfile +:+ BLOCK_TMPL block instname i)
  end.

Definition create_vfiles (args : Args) : M string :=
  let blocks := blocks args in
  let len := Z.of_nat (length blocks) in
  (if decide (len = 0)
   then print "[GEN_RFNOC_INST ERROR] No blocks specified!" ;; exit 1
   else mret ());;
  (if decide (len > max_num_blocks args)
   then print ("[GEN_RFNOC_INST ERROR] Trying to connect " +:+ pretty len
               +:+ " blocks, max is " +:+ pretty (max_num_blocks args));;
        exit 1
   else mret ());;
  let num_ce := if fill_with_fifos args then max_num_blocks args else len in
  let vfile := HEADER_TMPL num_ce in
  print "--Using the following blocks to generate image:";;
  let block_count : gmap string Z := gset_to_gmap 0 (list_to_set blocks) in
  vfile ← for_blocks 0 blocks block_count vfile;
  let vfile := if fill_with_fifos args then vfile +:+ FILL_FIFO_TMPL len else vfile in
  mret vfile.

(** ** What the script asks of the operating system

    [scriptpath] is what [get_scriptpath()] returns.  [glob] and [isdir]
    answer [glob.glob] and [os.path.isdir] for the files as they are;
    [system], given the files, the working directory and the command,
    gives the value [os.system] returns and the files as the command
    leaves them. *)

Record OS := {
  scriptpath : string;
  glob : gmap string string → string → list string;
  isdir : gmap string string → string → bool;
  system : gmap string string → string → string → Z * gmap string string
}.

Section Script.

Context (os : OS).

Definition get_scriptpath : M string := mret (scriptpath os).

Definition glob_glob (pattern : string) : M (list string) := λ w,
  (Ret (glob os (fs w) pattern), w).

Definition os_path_isdir (path : string) : M bool := λ w,
  (Ret (isdir os (fs w) path), w).

Definition os_system (cmd : string) : M Z := λ w,
  let '(ret_val, files) := system os (fs w) (cwd w) cmd in
  (Ret ret_val, {| fs := files; stdout := stdout w; cwd := cwd w |}).

(** ** device_dict and dtarget *)

Definition device_dict (name : string) : outcome string :=
  let build_dir : gmap string string :=
    list_to_map [("x300", "x300"); ("x310", "x300");
                 ("e300", "e300"); ("e310", "e300")] in
  getitem build_dir name.

Definition dtarget (args : Args) : outcome string :=
  match target args with
  | None =>
      let default_trgt : gmap string string :=
        list_to_map [("x300", "X300_RFNOC_HG"); ("x310", "X310_RFNOC_HG");
                     ("e310", "E310_RFNOC_HLS")] in
      getitem default_trgt (device args)
  | Some t => Ret t
  end.

(** ** file_generator *)

Definition file_generator (args : Args) (vfile : string) : M unit :=
  fpga_utils_path ← get_scriptpath;
  print ("Adding CE instantiation file for '" +:+ PyStr.str_opt (target args) +:+ "'");;
  top ← lift (device_dict (PyStr.lower (device args)));
  let path_to_file := fpga_utils_path +:+ "/../../top/" +:+ top
                      +:+ "/rfnoc_ce_auto_inst_" +:+ device args +:+ ".v" in
  match outfile args with
  | None => write_file path_to_file vfile
  | Some out => write_file out vfile
  end.

(** ** checkdir_v, compare, readfile *)

Definition checkdir_v (include_dir : string) : M unit :=
  nfiles ← glob_glob (include_dir +:+ "*.v");
  if decide (length nfiles = 0%nat)
  then print "[ERROR] No verilog files found in the given directory";; exit 0
  else print "Verilog sources found!".

Definition compare (file1 file2 : string) : M (list string) :=
  arg1 ← read_file file1;
  arg2 ← read_file file2;
  let text1 := PyStr.readlines arg1 in
  let text2 := PyStr.readlines arg2 in
  mret (filter (λ item, item ∉ text2) text1).

Definition readfile (files : string) : M (list string) :=
  arg ← read_file files;
  mret (PyStr.readlines arg).

(** ** append_item_into_file

    The two patterns are [re.escape]d literals, so [re.findall] is the
    literal search [PyStr.findall]; the escaped text only shows in the
    message. [lines[-1]] is taken of a non-empty list. *)

Definition linepattern : string := "RFNOC_OOT_SRCS = \" +:+ PyStr.nl.

Definition prefixpattern (dirs : string) : string :=
  "$(addprefix " +:+ dirs +:+ ", \" +:+ PyStr.nl.

Definition dest_srcs_file (target_dir : string) : string :=
  PyStr.path_join (scriptpath os) [".."; ".."; "top"; target_dir; "Makefile.srcs"].

Definition oot_srcs_file (dirs : string) : string :=
  PyStr.path_join dirs ["Makefile.srcs"].

Fixpoint for_include_dirs (target_dir : string) (include_dirs : list string) : M unit :=
  match include_dirs with
  | [] => mret ()
  | dirs :: rest =>
      checkdir_v dirs;;
      oldfile ← read_file (dest_srcs_file target_dir);
      let prefixlines := PyStr.findall (prefixpattern dirs) oldfile in
      let paste (last_line srcs : string) : M unit :=
        let newfile := PyStr.replace last_line (last_line +:+ srcs) oldfile in
        write_file (dest_srcs_file target_dir) newfile;;
        for_include_dirs target_dir rest in
      if decide (length prefixlines = 0%nat) then
        let lines := PyStr.findall linepattern oldfile in
        if decide (length lines = 0%nat) then
          print ("Pattern " +:+ PyStr.re_escape linepattern
                 +:+ " not found. Could not write " +:+ oldfile +:+ " file")
        else
          let last_line := default "" (last lines) in
          contents ← readfile (oot_srcs_file dirs);
          paste last_line (PyStr.join contents)
      else
        let last_line := default "" (last prefixlines) in
        notinside ← compare (oot_srcs_file dirs) (dest_srcs_file target_dir);
        paste last_line (PyStr.join notinside)
  end.

Definition append_item_into_file (args : Args) : M unit :=
  target_dir ← lift (device_dict (PyStr.lower (device args)));
  match include_dir args with
  | Some include_dirs => for_include_dirs target_dir include_dirs
  | None => mret ()
  end.

(** ** build *)

Definition build (args : Args) : M Z :=
  cwd ← get_scriptpath;
  target_dir ← lift (device_dict (PyStr.lower (device args)));
  let build_dir := PyStr.path_join cwd [".."; ".."; "top"; target_dir] in
  is_dir ← os_path_isdir build_dir;
  if (is_dir : bool) then
    print ("changing temporarily working directory to " +:+ build_dir);;
    chdir build_dir;;
    trgt ← lift (dtarget args);
    let make_cmd := "source ./setupenv.sh && make " +:+ trgt in
    let make_cmd := if GUI args then make_cmd +:+ " GUI=1" else make_cmd in
    ret_val ← os_system make_cmd;
    chdir cwd;;
    mret ret_val
  else raise (UnboundLocalError "ret_val").

(** ** main, and the script: [exit(main())] *)

Definition main (args : Args) : M Z :=
  vfile ← create_vfiles args;
  file_generator args vfile;;
  append_item_into_file args;;
  match outfile args with
  | None => build args
  | Some out =>
      print ("Instantiation file generated at " +:+ out);;
      mret 0
  end.

Definition script (args : Args) : M unit :=
  status ← main args;
  exit status.

End Script.

(** ** The instance names the loop of [create_vfiles] produces

    [instnames] runs the same loop body over the same counters and keeps
    the successive values of the local variable [instname]. *)

Fixpoint instnames_from (block_count : gmap string Z) (blocks : list string)
  : outcome (list string) :=
  match blocks with
  | [] => Ret []
  | block :: rest =>
      '(block_count, instname) ← next_instname block_count block;
      names ← instnames_from block_count rest;
      Ret (instname :: names)
  end.

Definition instnames (blocks : list string) : outcome (list string) :=
  instnames_from (gset_to_gmap 0 (list_to_set blocks)) blocks.

(** ** Vocabulary of the statements *)

(** How many entries of [l] are the block [b]. *)
Definition occurrences (b : string) (l : list string) : nat :=
  length (filter (λ x, x = b) l).

(** Entry [i] of [blocks], being block [b], is the [k]-th occurrence of
    [b]: [k] counts the entries [0..i] equal to [b]. *)
Definition occurrence_number (blocks : list string) (i : nat) (b : string) : Z :=
  Z.of_nat (occurrences b (take (S i) blocks)).

(** No suffix for the first occurrence, the decimal [k] for the [k]-th. *)
Definition numeric_suffix (k : Z) : string :=
  if decide (k = 1) then "" else pretty k.

Definition expected_instname (blocks : list string) (i : nat) (b : string) : string :=
  "inst_" +:+ b +:+ numeric_suffix (occurrence_number blocks i b).




(** One [BLOCK_TMPL] per entry, in order, entry [j] wired to slot [i + j]. *)
Fixpoint instantiations (i : Z) (blocks names : list string) : list string :=
  match blocks, names with
  | b :: blocks', n :: names' => BLOCK_TMPL b n i :: instantiations (i + 1) blocks' names'
  | _, _ => []
  end.

(** [s[n:]] *)
Fixpoint drop_s (n : nat) (s : string) : string :=
  match n, s with
  | O, _ => s
  | S k, String _ s' => drop_s k s'
  | S _, "" => ""
  end.

(** The state after [open(path, 'w').write(txt)]. *)
Definition written (path txt : string) (w : World) : World :=
  {| fs := <[path := txt]> (fs w); stdout := stdout w; cwd := cwd w |}.

(** The state after printing [lines]. *)
Definition say (lines : list string) (w : World) : World :=
  {| fs := fs w; stdout := stdout w ++ lines; cwd := cwd w |}.

(** ** Concrete runs *)

(** A machine where the script lives in [/opt/fpga/usrp3/tools/scripts],
    the include directory [oot/] holds one Verilog file, every build
    directory exists and the build command fails with wait status 512. *)
Definition os_x : OS := {|
  scriptpath := "/opt/fpga/usrp3/tools/scripts";
  glob := λ _ pattern,
    if decide (pattern = "oot/*.v") then ["oot/noc_block_gain.v"] else [];
  isdir := λ _ _, true;
  system := λ files _ _, (512, files)
|}.

Definition mk_world (files : list (string * string)) (dir : string) : World :=
  {| fs := list_to_map files; stdout := []; cwd := dir |}.

(** [make.py fft fft fft2] *)
Definition args_collide : Args := {|
  include_dir := None; max_num_blocks := 10; fill_with_fifos := false;
  outfile := None; device := "x310"; target := None; GUI := false;
  blocks := ["fft"; "fft"; "fft2"]
|}.

(** [make.py -o out.v fft], and the same with [--fill-with-fifos] *)
Definition args_one (fill : bool) : Args := {|
  include_dir := None; max_num_blocks := 10; fill_with_fifos := fill;
  outfile := Some "out.v"; device := "x310"; target := None; GUI := false;
  blocks := ["fft"]
|}.

(** [make.py -m 2 fft fir window] *)
Definition args_too_many : Args := {|
  include_dir := None; max_num_blocks := 2; fill_with_fifos := false;
  outfile := None; device := "x310"; target := None; GUI := false;
  blocks := ["fft"; "fir"; "window"]
|}.

(** [make.py fft -o out.v -I dir] (the block first: [-I] takes every
    word that follows it) *)
Definition args_merge (dir : string) : Args := {|
  include_dir := Some [dir]; max_num_blocks := 10; fill_with_fifos := false;
  outfile := Some "out.v"; device := "x310"; target := None; GUI := false;
  blocks := ["fft"]
|}.

(** [make.py -g fft] *)
Definition args_build : Args := {|
  include_dir := None; max_num_blocks := 10; fill_with_fifos := false;
  outfile := None; device := "x310"; target := None; GUI := true;
  blocks := ["fft"]
|}.

Definition dest_x : string := dest_srcs_file os_x "x300".

(** The source list of the include directory [oot/]. *)
Definition oot_plain : string := "noc_block_gain.v
".

Definition oot_prefixed : string := "RFNOC_OOT_SRCS += $(addprefix oot/, \
noc_block_gain.v \
)
".

(** Destination lists: with the anchor once, with the anchor twice,
    without anchor, patched with [oot_plain], patched with
    [oot_prefixed]. *)
Definition dest_fresh : string := "RFNOC_OOT_SRCS = \
".

Definition dest_two_anchors : string := "RFNOC_OOT_SRCS = \
ifdef SIM
RFNOC_OOT_SRCS = \
endif
".

Definition dest_no_anchor : string := "RFNOC_SRCS = top.v
".

Definition dest_patched_plain : string := "RFNOC_OOT_SRCS = \
noc_block_gain.v
".

Definition dest_patched_prefixed : string := "RFNOC_OOT_SRCS = \
RFNOC_OOT_SRCS += $(addprefix oot/, \
noc_block_gain.v \
)
".

(** [make.py -d dev fft], with or without [-t], [-o] and [-g] *)
Definition args_device (dev : string) (trgt out : option string) (gui : bool) : Args := {|
  include_dir := None; max_num_blocks := 10; fill_with_fifos := false;
  outfile := out; device := dev; target := trgt; GUI := gui;
  blocks := ["fft"]
|}.

(** The value of a run that returned, and its final state. *)
Definition value_of {A} (dflt : A) (run : outcome A * World) : A :=
  match run.1 with Ret a => a | _ => dflt end.

(** A machine without build directories and without Verilog files. *)
Definition os_bare : OS := {|
  scriptpath := "/opt/fpga/usrp3/tools/scripts";
  glob := λ _ _, [];
  isdir := λ _ _, false;
  system := λ files _ _, (0, files)
|}.

(** Text made of ASCII characters only. *)
Fixpoint ascii_only (s : string) : bool :=
  match s with
  | "" => true
  | String c s' => Nat.ltb (nat_of_ascii c) 128 && ascii_only s'
  end.

(** [s.endswith("\n")] *)
Fixpoint ends_with_newline (s : string) : bool :=
  match s with
  | "" => false
  | String c "" => bool_decide (c = "010"%char)
  | String _ s' => ends_with_newline s'
  end.

(** ** Statements that the code does not satisfy as they are worded *)

(** A destination list that holds every line of the include directory's
    source list is left as it is. *)
Definition merge_keeps_list_with_entries : Prop :=
  ∀ os args target_dir d w old srcs,
    device_dict (PyStr.lower (device args)) = Ret target_dir →
    include_dir args = Some [d] →
    glob os (fs w) (d +:+ "*.v") ≠ [] →
    fs w !! dest_srcs_file os target_dir = Some old →
    fs w !! oot_srcs_file d = Some srcs →
    Forall (λ line, line ∈ PyStr.readlines old) (PyStr.readlines srcs) →
    ∃ w', append_item_into_file os args w = (Ret (), w') ∧
          fs w' !! dest_srcs_file os target_dir = Some old.

(** A destination list without anchor line gets the entries at its end. *)
Definition merge_appends_without_anchor : Prop :=
  ∀ os args target_dir d w old srcs,
    device_dict (PyStr.lower (device args)) = Ret target_dir →
    include_dir args = Some [d] →
    glob os (fs w) (d +:+ "*.v") ≠ [] →
    fs w !! dest_srcs_file os target_dir = Some old →
    fs w !! oot_srcs_file d = Some srcs →
    PyStr.findall (prefixpattern d) old = [] →
    PyStr.findall linepattern old = [] →
    ∃ w', append_item_into_file os args w = (Ret (), w') ∧
          fs w' !! dest_srcs_file os target_dir = Some (old +:+ srcs).

(** The header sized to the maximum slot count, whatever the fill flag. *)
Definition header_sized_to_maximum : Prop :=
  ∀ args w,
    (1 ≤ length (blocks args))%nat →
    Z.of_nat (length (blocks args)) ≤ max_num_blocks args →
    ∃ names w',
      instnames (blocks args) = Ret names ∧
      create_vfiles args w
      = (Ret (HEADER_TMPL (max_num_blocks args)
              +:+ PyStr.join (instantiations 0 (blocks args) names)
              +:+ (if fill_with_fifos args
                   then FILL_FIFO_TMPL (Z.of_nat (length (blocks args))) else "")),
         w').

(** * Proofs *)

(** ** Strings *)

Lemma app_nil_r_s (s : string) : s +:+ "" = s.
Proof. induction s as [|c s IH]; [done|]. unfold String.app in *; simpl. by rewrite IH. Qed.

Lemma app_assoc_s (a b c : string) : a +:+ (b +:+ c) = (a +:+ b) +:+ c.
Proof.
  induction a as [|x a IH]; [done|].
  unfold String.app in *; simpl. by rewrite IH.
Qed.

Lemma app_cons_s (x : ascii) (a b : string) : String x a +:+ b = String x (a +:+ b).
Proof. done. Qed.

(** ** The process state *)

Lemma say_nil w : say [] w = w.
Proof. destruct w. unfold say; simpl. by rewrite app_nil_r. Qed.

Lemma say_say l1 l2 w : say l2 (say l1 w) = say (l1 ++ l2) w.
Proof. unfold say; simpl. by rewrite app_assoc. Qed.

Lemma print_say line w : print line w = (Ret (), say [line] w).
Proof. done. Qed.

Lemma bind_ret {A B} (m : M A) (k : A → M B) w a w' :
  m w = (Ret a, w') → (m ≫= k) w = k a w'.
Proof. intros H. unfold mbind, M_bind. by rewrite H. Qed.

Lemma bind_exit {A B} (m : M A) (k : A → M B) w c w' :
  m w = (Exit c, w') → (m ≫= k) w = (Exit c, w').
Proof. intros H. unfold mbind, M_bind. by rewrite H. Qed.

(** ** The counters and the instance names *)

Lemma occurrences_snoc_eq b seen :
  occurrences b (seen ++ [b]) = S (occurrences b seen).
Proof.
  unfold occurrences. rewrite filter_app, length_app.
  rewrite filter_cons_True by done. simpl. lia.
Qed.

Lemma occurrences_snoc_ne b b' seen :
  b ≠ b' → occurrences b' (seen ++ [b]) = occurrences b' seen.
Proof.
  intros Hne. unfold occurrences. rewrite filter_app, length_app.
  rewrite filter_cons_False by done. simpl. lia.
Qed.

Lemma next_instname_counted block_count block c :
  block_count !! block = Some c →
  next_instname block_count block
  = Ret (<[block := c + 1]> block_count, "inst_" +:+ block +:+ numeric_suffix (c + 1)).
Proof.
  intros Hc. unfold next_instname, getitem, numeric_suffix.
  rewrite Hc. simpl. rewrite lookup_insert_eq. simpl.
  by destruct (decide (c + 1 = 1)); simpl; rewrite ?lookup_insert_eq.
Qed.

Lemma take_snoc_middle (seen rest : list string) b :
  take (S (length seen)) (seen ++ b :: rest) = seen ++ [b].
Proof.
  rewrite (cons_middle b seen rest), app_assoc.
  rewrite take_app_length'; [done|]. rewrite length_app. simpl. lia.
Qed.

(** The counters hold, for every block still to come, the number of its
    occurrences seen so far; then the names are the expected ones. *)
Lemma instnames_from_counted rest : ∀ seen block_count,
  (∀ b, b ∈ rest → block_count !! b = Some (Z.of_nat (occurrences b seen))) →
  instnames_from block_count rest
  = Ret (imap (λ j b, expected_instname (seen ++ rest) (length seen + j) b) rest).
Proof.
  induction rest as [|b rest IH]; intros seen bc Hinv; [done|].
  simpl. rewrite (next_instname_counted _ _ _ (Hinv b ltac:(left))). simpl.
  rewrite (IH (seen ++ [b])); simpl.
  - f_equal. f_equal.
    + unfold expected_instname, occurrence_number.
      rewrite Nat.add_0_r, take_snoc_middle, occurrences_snoc_eq.
      do 3 f_equal. lia.
    + apply imap_ext. intros j x _. simpl.
      rewrite <- app_assoc. simpl. rewrite length_app. simpl.
      f_equal. lia.
  - intros b' Hb'. destruct (decide (b' = b)) as [->|Hne].
    + rewrite lookup_insert_eq, occurrences_snoc_eq. f_equal. lia.
    + rewrite lookup_insert_ne by done.
      rewrite occurrences_snoc_ne by done. apply Hinv. by right.
Qed.

Lemma instnames_expected blocks :
  instnames blocks = Ret (imap (expected_instname blocks) blocks).
Proof.
  unfold instnames.
  rewrite (instnames_from_counted blocks []); [done|].
  intros b Hb. rewrite lookup_gset_to_gmap_Some. split; [|done].
  by apply elem_of_list_to_set.
Qed.

(** The loop pastes one instantiation per entry, with the names of
    [instnames_from], and prints one line per entry. *)
Lemma for_blocks_instnames rest : ∀ block_count names i vfile w,
  instnames_from block_count rest = Ret names →
  for_blocks i rest block_count vfile w
  = (Ret (vfile +:+ PyStr.join (instantiations i rest names)),
     say ((λ b, "    * " +:+ b) <$> rest) w).
Proof.
  induction rest as [|b rest IH]; intros bc names i vfile w Hn; simpl in *.
  - injection Hn as <-. simpl. by rewrite app_nil_r_s, say_nil.
  - destruct (next_instname bc b) as [[bc' n]| |] eqn:Hnext; try done.
    simpl in Hn.
    destruct (instnames_from bc' rest) as [ns| |] eqn:Hrest; try done.
    injection Hn as <-.
    unfold mbind at 1, M_bind, lift. simpl.
    unfold mbind at 1, M_bind. rewrite print_say.
    rewrite (IH bc' ns) by done. simpl.
    by rewrite say_say, app_assoc_s.
Qed.

Lemma length_instantiations i blocks names :
  length names = length blocks →
  length (instantiations i blocks names) = length blocks.
Proof.
  revert i names. induction blocks as [|b blocks IH]; intros i [|n names] ?;
    simplify_eq/=; [done|]. by rewrite IH.
Qed.

Lemma lookup_instantiations blocks : ∀ i names j b n,
  blocks !! j = Some b → names !! j = Some n →
  instantiations i blocks names !! j = Some (BLOCK_TMPL b n (i + Z.of_nat j)).
Proof.
  induction blocks as [|b' blocks IH]; intros i [|n' names] [|j] b n Hb Hn;
    simplify_eq/=.
  - by rewrite Z.add_0_r.
  - rewrite (IH _ _ _ _ _ Hb Hn). do 2 f_equal. lia.
Qed.

(** ** create_vfiles on an accepted block list *)

Lemma create_vfiles_rendered args w :
  (1 ≤ length (blocks args))%nat →
  Z.of_nat (length (blocks args)) ≤ max_num_blocks args →
  create_vfiles args w
  = (Ret (HEADER_TMPL (if fill_with_fifos args then max_num_blocks args
                       else Z.of_nat (length (blocks args)))
          +:+ PyStr.join (instantiations 0 (blocks args)
                            (imap (expected_instname (blocks args)) (blocks args)))
          +:+ (if fill_with_fifos args
               then FILL_FIFO_TMPL (Z.of_nat (length (blocks args))) else "")),
     say ("--Using the following blocks to generate image:"
          :: ((λ b, "    * " +:+ b) <$> blocks args)) w).
Proof.
  intros Hmin Hmax. unfold create_vfiles.
  destruct (decide (Z.of_nat (length (blocks args)) = 0)) as [?|_]; [lia|].
  destruct (decide (Z.of_nat (length (blocks args)) > max_num_blocks args)) as [?|_];
    [lia|].
  unfold mbind at 1, M_bind; simpl.
  unfold mbind at 1, M_bind; simpl.
  unfold mbind at 1, M_bind; rewrite print_say.
  unfold mbind at 1, M_bind.
  rewrite (for_blocks_instnames _ _ _ _ _ _ (instnames_expected (blocks args))).
  simpl. rewrite say_say. simpl.
  destruct (fill_with_fifos args); by rewrite ?app_nil_r_s, ?app_assoc_s.
Qed.

(** ** create_vfiles on a rejected block list *)

Lemma create_vfiles_empty args w :
  blocks args = [] →
  create_vfiles args w
  = (Exit 1, say ["[GEN_RFNOC_INST ERROR] No blocks specified!"] w).
Proof. intros Hb. unfold create_vfiles. by rewrite Hb. Qed.

Lemma create_vfiles_too_many args w :
  Z.of_nat (length (blocks args)) > max_num_blocks args →
  ∃ msg, create_vfiles args w = (Exit 1, say [msg] w).
Proof.
  intros Hmax. unfold create_vfiles.
  destruct (decide (Z.of_nat (length (blocks args)) = 0)) as [H0|_].
  - by eexists.
  - destruct (decide _) as [_|?]; [|lia]. by eexists.
Qed.

(** ** Occurrence numbers *)

Lemma occurrences_take_mono b (l : list string) : ∀ n m,
  (n ≤ m)%nat → (occurrences b (take n l) ≤ occurrences b (take m l))%nat.
Proof.
  unfold occurrences.
  induction l as [|x l IH]; intros [|n] [|m] Hnm; simpl; try lia.
  specialize (IH n m ltac:(lia)).
  destruct (decide (x = b)) as [->|Hne].
  - rewrite !filter_cons_True by done. simpl. lia.
  - by rewrite !filter_cons_False by done.
Qed.

Lemma occurrences_take_S b (l : list string) i :
  l !! i = Some b →
  occurrences b (take (S i) l) = S (occurrences b (take i l)).
Proof.
  intros Hi. rewrite (take_S_r _ _ _ Hi). apply occurrences_snoc_eq.
Qed.

Lemma occurrence_number_pos blocks i b :
  blocks !! i = Some b → 1 ≤ occurrence_number blocks i b.
Proof.
  intros Hi. unfold occurrence_number. rewrite (occurrences_take_S _ _ _ Hi). lia.
Qed.

Lemma occurrence_number_increasing blocks i j b :
  (i < j)%nat → blocks !! j = Some b →
  occurrence_number blocks i b < occurrence_number blocks j b.
Proof.
  intros Hij Hj. unfold occurrence_number.
  rewrite (occurrences_take_S _ _ _ Hj).
  pose proof (occurrences_take_mono b blocks (S i) j ltac:(lia)). lia.
Qed.

(** ** Where the instance names are distinct

    The suffix is a string of digits; glued to a block name that does not
    end in a digit it can be read back, and then the name determines the
    block and its occurrence number. *)











(** ** Literal search and replacement *)

Lemma drop_s_nil n : drop_s n "" = "".
Proof. by destruct n. Qed.

Lemma drop_s_0 s : drop_s 0 s = s.
Proof. by destruct s. Qed.

Lemma startswith_drop p : ∀ s,
  PyStr.startswith p s = true → p +:+ drop_s (String.length p) s = s.
Proof.
  induction p as [|a p IH]; intros [|c s] Hp; simplify_eq/=; [done..|].
  destruct (decide (a = c)) as [->|]; [|done].
  rewrite app_cons_s. by rewrite IH.
Qed.

Lemma findall_go_all pat : ∀ s skip x, x ∈ PyStr.findall_go pat skip s → x = pat.
Proof.
  induction s as [|c s IH]; intros skip x Hx; [by apply elem_of_nil in Hx|].
  destruct skip as [|k]; cbn [PyStr.findall_go] in Hx; [|by eapply IH].
  destruct (PyStr.startswith pat (String c s)); [|by eapply IH].
  apply elem_of_cons in Hx as [->|Hx]; [done|by eapply IH].
Qed.

Lemma last_findall pat s :
  PyStr.findall pat s ≠ [] → default "" (last (PyStr.findall pat s)) = pat.
Proof.
  intros Hne.
  destruct (last (PyStr.findall pat s)) as [x|] eqn:Hlast.
  - simpl. apply (findall_go_all pat s 0 x).
    apply last_Some in Hlast as [l' Hl']. unfold PyStr.findall in Hl'.
    rewrite Hl'. apply elem_of_app. right. by left.
  - by apply last_None in Hlast.
Qed.

Lemma intersperse_empty s : PyStr.intersperse "" s = s.
Proof. induction s as [|c s IH]; [done|]. simpl. by rewrite IH. Qed.

Lemma replace_go_same a old' : ∀ s skip,
  PyStr.replace_go (String a old') (String a old') skip s = drop_s skip s.
Proof.
  induction s as [|c s IH]; intros skip; [by rewrite drop_s_nil|].
  destruct skip as [|k]; cbn [PyStr.replace_go drop_s]; [|apply IH].
  destruct (PyStr.startswith (String a old') (String c s)) eqn:Hp.
  - rewrite IH. apply startswith_drop in Hp.
    cbn [String.length drop_s] in Hp.
    by replace (String.length (String a old') - 1)%nat with (String.length old')
      by (simpl; lia).
  - by rewrite IH.
Qed.

(** [s.replace(old, old)] is [s]. *)
Lemma replace_same old s : PyStr.replace old old s = s.
Proof.
  destruct old as [|a old']; [apply intersperse_empty|].
  unfold PyStr.replace. by rewrite replace_go_same.
Qed.

(** Without an occurrence nothing is replaced. *)
Lemma replace_go_absent pat new : ∀ s skip,
  PyStr.findall_go pat skip s = [] → PyStr.replace_go pat new skip s = drop_s skip s.
Proof.
  induction s as [|c s IH]; intros skip Hf; [by rewrite drop_s_nil|].
  destruct skip as [|k]; cbn [PyStr.replace_go PyStr.findall_go drop_s] in *;
    [|by apply IH].
  destruct (PyStr.startswith pat (String c s)); [done|]. by rewrite IH.
Qed.

(** With exactly one occurrence, [new] takes its place and the rest of
    the text is as it was. *)
Lemma replace_go_single a pat' new : ∀ s skip,
  PyStr.findall_go (String a pat') skip s = [String a pat'] →
  ∃ pre post,
    drop_s skip s = pre +:+ String a pat' +:+ post ∧
    PyStr.replace_go (String a pat') new skip s = pre +:+ new +:+ post.
Proof.
  induction s as [|c s IH]; intros skip Hf; [done|].
  destruct skip as [|k]; cbn [PyStr.replace_go PyStr.findall_go drop_s] in *;
    [|by apply IH].
  destruct (PyStr.startswith (String a pat') (String c s)) eqn:Hp.
  - injection Hf as Hf.
    replace (String.length pat' - 0)%nat with (String.length pat') in Hf by lia.
    replace (String.length (String a pat') - 1)%nat with (String.length pat')
      by (simpl; lia).
    exists "", (drop_s (String.length pat') s). split.
    + by apply startswith_drop in Hp.
    + by rewrite (replace_go_absent _ _ _ _ Hf).
  - destruct (IH 0%nat Hf) as (pre & post & Hs & Hr).
    rewrite drop_s_0 in Hs.
    exists (String c pre), post. by rewrite !(app_cons_s c pre), <- Hs, Hr.
Qed.

Lemma replace_single pat new s :
  pat ≠ "" →
  PyStr.findall pat s = [pat] →
  ∃ pre post, s = pre +:+ pat +:+ post ∧ PyStr.replace pat new s = pre +:+ new +:+ post.
Proof.
  destruct pat as [|a pat']; [done|]. intros _ Hf.
  destruct (replace_go_single a pat' new s 0 Hf) as (pre & post & Hs & Hr).
  rewrite drop_s_0 in Hs. by exists pre, post.
Qed.

(** ** The include-merge step *)

Section Merge.

Context (os : OS).

Lemma checkdir_v_found d w :
  glob os (fs w) (d +:+ "*.v") ≠ [] →
  checkdir_v os d w = (Ret (), say ["Verilog sources found!"] w).
Proof.
  intros Hg. unfold checkdir_v, glob_glob, mbind, M_bind.
  destruct (glob os (fs w) (d +:+ "*.v")); [done|].
  by rewrite decide_False.
Qed.

Lemma checkdir_v_missing d w :
  glob os (fs w) (d +:+ "*.v") = [] →
  checkdir_v os d w
  = (Exit 0, say ["[ERROR] No verilog files found in the given directory"] w).
Proof.
  intros Hg. unfold checkdir_v, glob_glob, mbind, M_bind. by rewrite Hg.
Qed.

Lemma read_file_present path txt w :
  fs w !! path = Some txt → read_file path w = (Ret txt, w).
Proof. intros H. unfold read_file. by rewrite H. Qed.

Lemma filter_absent_nil (text1 text2 : list string) :
  Forall (λ line, line ∈ text2) text1 → filter (λ item, item ∉ text2) text1 = [].
Proof.
  induction 1 as [|x l Hx _ IH]; [done|].
  by rewrite filter_cons_False by (intros Hn; by apply Hn).
Qed.

(** Neither the prefix line nor the anchor: a message, no write, and the
    remaining include directories are not visited. *)
Lemma for_include_dirs_no_anchor target_dir d rest w old :
  glob os (fs w) (d +:+ "*.v") ≠ [] →
  fs w !! dest_srcs_file os target_dir = Some old →
  PyStr.findall (prefixpattern d) old = [] →
  PyStr.findall linepattern old = [] →
  for_include_dirs os target_dir (d :: rest) w
  = (Ret (),
     say ["Verilog sources found!";
          "Pattern " +:+ PyStr.re_escape linepattern
          +:+ " not found. Could not write " +:+ old +:+ " file"] w).
Proof.
  intros Hg Hold Hprefix Hanchor. cbn [for_include_dirs].
  rewrite (bind_ret _ _ _ _ _ (checkdir_v_found d w Hg)).
  rewrite (bind_ret _ _ _ old _
             (read_file_present _ _ (say ["Verilog sources found!"] w) Hold)).
  rewrite Hprefix, Hanchor. simpl. by rewrite print_say, say_say.
Qed.

(** No prefix line, but the anchor: the whole source list is pasted
    after the anchor, by [str.replace]. *)
Lemma for_include_dirs_anchor target_dir d rest w old srcs :
  glob os (fs w) (d +:+ "*.v") ≠ [] →
  fs w !! dest_srcs_file os target_dir = Some old →
  fs w !! oot_srcs_file d = Some srcs →
  PyStr.findall (prefixpattern d) old = [] →
  PyStr.findall linepattern old ≠ [] →
  for_include_dirs os target_dir (d :: rest) w
  = for_include_dirs os target_dir rest
      (written (dest_srcs_file os target_dir)
         (PyStr.replace linepattern
            (linepattern +:+ PyStr.join (PyStr.readlines srcs)) old)
         (say ["Verilog sources found!"] w)).
Proof.
  intros Hg Hold Hsrcs Hprefix Hanchor. cbn [for_include_dirs].
  rewrite (bind_ret _ _ _ _ _ (checkdir_v_found d w Hg)).
  rewrite (bind_ret _ _ _ old _
             (read_file_present _ _ (say ["Verilog sources found!"] w) Hold)).
  rewrite Hprefix. simpl.
  rewrite (last_findall _ _ Hanchor).
  destruct (PyStr.findall linepattern old) eqn:Hf; [done|]. simpl.
  unfold readfile.
  erewrite bind_ret; [|erewrite bind_ret; [|by apply read_file_present]; done].
  by erewrite bind_ret.
Qed.

(** The prefix line and every line of the source list already there:
    the list is written back as it was. *)
Lemma for_include_dirs_present target_dir d rest w old srcs :
  glob os (fs w) (d +:+ "*.v") ≠ [] →
  fs w !! dest_srcs_file os target_dir = Some old →
  fs w !! oot_srcs_file d = Some srcs →
  PyStr.findall (prefixpattern d) old ≠ [] →
  Forall (λ line, line ∈ PyStr.readlines old) (PyStr.readlines srcs) →
  for_include_dirs os target_dir (d :: rest) w
  = for_include_dirs os target_dir rest (say ["Verilog sources found!"] w).
Proof.
  intros Hg Hold Hsrcs Hprefix Hlines. cbn [for_include_dirs].
  rewrite (bind_ret _ _ _ _ _ (checkdir_v_found d w Hg)).
  rewrite (bind_ret _ _ _ old _
             (read_file_present _ _ (say ["Verilog sources found!"] w) Hold)).
  rewrite (last_findall _ _ Hprefix).
  destruct (PyStr.findall (prefixpattern d) old) eqn:Hf; [done|]. simpl.
  unfold compare.
  erewrite bind_ret;
    [|erewrite bind_ret; [|by apply read_file_present];
      erewrite bind_ret; [|by apply read_file_present]; done].
  rewrite filter_absent_nil by done. simpl.
  rewrite app_nil_r_s, replace_same.
  erewrite bind_ret; [|done]. f_equal.
  unfold written, say. simpl. f_equal. by apply insert_id.
Qed.

Lemma for_include_dirs_all_present target_dir dirs : ∀ w old,
  fs w !! dest_srcs_file os target_dir = Some old →
  Forall (λ d,
    glob os (fs w) (d +:+ "*.v") ≠ [] ∧
    PyStr.findall (prefixpattern d) old ≠ [] ∧
    ∃ srcs, fs w !! oot_srcs_file d = Some srcs ∧
            Forall (λ line, line ∈ PyStr.readlines old) (PyStr.readlines srcs))
    dirs →
  for_include_dirs os target_dir dirs w
  = (Ret (), say (replicate (length dirs) "Verilog sources found!") w).
Proof.
  induction dirs as [|d dirs IH]; intros w old Hold Hall.
  - simpl. by rewrite say_nil.
  - apply Forall_cons in Hall as [(Hg & Hp & srcs & Hsrcs & Hlines) Hall].
    rewrite (for_include_dirs_present _ _ _ _ _ _ Hg Hold Hsrcs Hp Hlines).
    rewrite (IH _ old); [by rewrite say_say|done..].
Qed.

End Merge.

Lemma append_item_into_file_dirs os args target_dir dirs w :
  device_dict (PyStr.lower (device args)) = Ret target_dir →
  include_dir args = Some dirs →
  append_item_into_file os args w = for_include_dirs os target_dir dirs w.
Proof.
  intros Hdev Hinc. unfold append_item_into_file. rewrite Hdev, Hinc.
  by unfold mbind, M_bind, lift.
Qed.

(** With the anchor exactly once (and no prefix line) the source list
    stands right after the anchor and the rest of the file is as it was. *)
Lemma merge_single_anchor os args target_dir d w old srcs :
  device_dict (PyStr.lower (device args)) = Ret target_dir →
  include_dir args = Some [d] →
  glob os (fs w) (d +:+ "*.v") ≠ [] →
  fs w !! dest_srcs_file os target_dir = Some old →
  fs w !! oot_srcs_file d = Some srcs →
  PyStr.findall (prefixpattern d) old = [] →
  PyStr.findall linepattern old = [linepattern] →
  ∃ pre post w',
    old = pre +:+ linepattern +:+ post ∧
    append_item_into_file os args w = (Ret (), w') ∧
    fs w' !! dest_srcs_file os target_dir
    = Some (pre +:+ (linepattern +:+ PyStr.join (PyStr.readlines srcs)) +:+ post).
Proof.
  intros Hdev Hinc Hg Hold Hsrcs Hprefix Hanchor.
  destruct (replace_single linepattern
              (linepattern +:+ PyStr.join (PyStr.readlines srcs)) old)
    as (pre & post & Hsplit & Hrepl); [done..|].
  eexists pre, post, _. split; [done|].
  rewrite (append_item_into_file_dirs _ _ _ _ _ Hdev Hinc).
  rewrite (for_include_dirs_anchor _ _ _ _ _ _ srcs Hg Hold Hsrcs Hprefix)
    by (by rewrite Hanchor).
  split; [done|]. simpl. by rewrite lookup_insert_eq, Hrepl.
Qed.

(** ** The build step *)

Lemma build_runs os args w target_dir trgt :
  device_dict (PyStr.lower (device args)) = Ret target_dir →
  dtarget args = Ret trgt →
  let build_dir := PyStr.path_join (scriptpath os) [".."; ".."; "top"; target_dir] in
  let make_cmd := "source ./setupenv.sh && make " +:+ trgt
                  +:+ (if GUI args then " GUI=1" else "") in
  isdir os (fs w) build_dir = true →
  build os args w
  = (Ret (system os (fs w) build_dir make_cmd).1,
     {| fs := (system os (fs w) build_dir make_cmd).2;
        stdout := stdout w
                  ++ ["changing temporarily working directory to " +:+ build_dir];
        cwd := scriptpath os |}).
Proof.
  intros Hdev Htrgt build_dir make_cmd Hdir.
  unfold build, get_scriptpath. rewrite Hdev, Htrgt.
  assert ((if GUI args
           then ("source ./setupenv.sh && make " +:+ trgt) +:+ " GUI=1"
           else "source ./setupenv.sh && make " +:+ trgt) = make_cmd) as Hcmd.
  { unfold make_cmd. destruct (GUI args); by rewrite ?app_nil_r_s, ?app_assoc_s. }
  unfold mbind, M_bind, mret, M_ret, lift, os_path_isdir, os_system, chdir.
  cbn beta iota. fold build_dir. rewrite Hdir.
  cbn [fs stdout cwd]. rewrite Hcmd.
  unfold print. cbn [fs stdout cwd].
  by destruct (system os (fs w) build_dir make_cmd).
Qed.

Lemma build_without_directory os args w target_dir :
  device_dict (PyStr.lower (device args)) = Ret target_dir →
  isdir os (fs w) (PyStr.path_join (scriptpath os) [".."; ".."; "top"; target_dir])
  = false →
  build os args w = (Raise (UnboundLocalError "ret_val"), w).
Proof.
  intros Hdev Hdir. unfold build, get_scriptpath. rewrite Hdev.
  unfold mbind, M_bind, mret, M_ret, lift, os_path_isdir.
  cbn beta iota. by rewrite Hdir.
Qed.

(** Two runs in a row.  With a source list that carries the directory's
    prefix line the second run changes nothing; with a plain source list
    it pastes the entries a second time. *)
Example merge_twice_prefixed :
  let w0 := mk_world [(dest_x, dest_fresh); ("oot/Makefile.srcs", oot_prefixed)]
              "/home/user" in
  let w1 := (append_item_into_file os_x (args_merge "oot/") w0).2 in
  let w2 := (append_item_into_file os_x (args_merge "oot/") w1).2 in
  fs w1 !! dest_x = Some dest_patched_prefixed ∧
  fs w2 !! dest_x = Some dest_patched_prefixed.
Proof. vm_compute. split; reflexivity. Qed.

Example merge_twice_plain :
  let w0 := mk_world [(dest_x, dest_fresh); ("oot/Makefile.srcs", oot_plain)]
              "/home/user" in
  let w1 := (append_item_into_file os_x (args_merge "oot/") w0).2 in
  let w2 := (append_item_into_file os_x (args_merge "oot/") w1).2 in
  fs w1 !! dest_x = Some dest_patched_plain ∧
  fs w2 !! dest_x = Some (dest_patched_plain +:+ oot_plain).
Proof. vm_compute. split; reflexivity. Qed.

(** * The claims *)

(** C1 (the code breaks it). The claim: for a block list of accepted
    length the output holds one instantiation per entry, in order, entry
    [i] on slot [i], and the instance names are pairwise distinct.  On
    [fft fft fft2] the second [fft] is named [inst_fft2], and so is the
    block [fft2]: the names are not distinct, and both instantiations are
    in the text [create_vfiles] returns. *)
Theorem instance_names_collide :
  ∃ names,
    instnames (blocks args_collide) = Ret names ∧
    names !! 1%nat = Some "inst_fft2" ∧
    names !! 2%nat = Some "inst_fft2" ∧
    ¬ NoDup names ∧
    ∀ w, (create_vfiles args_collide w).1
         = Ret (HEADER_TMPL 3
                +:+ PyStr.join [BLOCK_TMPL "fft" "inst_fft" 0;
                                BLOCK_TMPL "fft" "inst_fft2" 1;
                                BLOCK_TMPL "fft2" "inst_fft2" 2]).
Proof.
  exists ["inst_fft"; "inst_fft2"; "inst_fft2"].
  split; [by vm_compute|]. do 2 (split; [done|]). split.
  - intros Hnd. apply NoDup_cons in Hnd as [_ Hnd].
    apply NoDup_cons in Hnd as [Hin _]. apply Hin. by left.
  - intros w. rewrite create_vfiles_rendered; [|simpl; lia..].
    by vm_compute.
Qed.

(** C2. In every block list, entry [i] being the [k]-th occurrence of
    its block name [b]: the instance name is [inst_b] without suffix when
    [k = 1], and [inst_b] followed by the decimal [k] when [k >= 2]; a
    later occurrence of the same name has a strictly larger number.  The
    instance name is the one in the text: the loop of [create_vfiles]
    pastes, as its [i]-th instantiation, [BLOCK_TMPL] with this block,
    this name and slot [i], and so does [create_vfiles] whenever it
    accepts the list. *)
Theorem duplicate_suffixes (blks : list string) (i : nat) (b : string) :
  blks !! i = Some b →
  ∃ names name,
    instnames blks = Ret names ∧
    names !! i = Some name ∧
    (∀ vfile w,
       for_blocks 0 blks (gset_to_gmap 0 (list_to_set blks)) vfile w
       = (Ret (vfile +:+ PyStr.join (instantiations 0 blks names)),
          say ((λ b, "    * " +:+ b) <$> blks) w)) ∧
    (∀ args w,
       blocks args = blks →
       Z.of_nat (length blks) ≤ max_num_blocks args →
       (create_vfiles args w).1
       = Ret (HEADER_TMPL (if fill_with_fifos args then max_num_blocks args
                           else Z.of_nat (length blks))
              +:+ PyStr.join (instantiations 0 blks names)
              +:+ (if fill_with_fifos args
                   then FILL_FIFO_TMPL (Z.of_nat (length blks)) else ""))) ∧
    instantiations 0 blks names !! i = Some (BLOCK_TMPL b name (Z.of_nat i)) ∧
    let k := occurrence_number blks i b in
    1 ≤ k ∧
    (k = 1 → name = "inst_" +:+ b) ∧
    (2 ≤ k → name = "inst_" +:+ b +:+ pretty k) ∧
    (∀ j, (i < j)%nat → blks !! j = Some b → k < occurrence_number blks j b).
Proof.
  intros Hi.
  assert (imap (expected_instname blks) blks !! i
          = Some (expected_instname blks i b)) as Hname
    by (by rewrite list_lookup_imap, Hi).
  exists (imap (expected_instname blks) blks), (expected_instname blks i b).
  split; [apply instnames_expected|].
  split; [done|].
  split.
  { intros vfile w. apply for_blocks_instnames, instnames_expected. }
  split.
  { intros args w <- Hmax. rewrite create_vfiles_rendered; [done| |done].
    apply lookup_lt_Some in Hi. lia. }
  split.
  { by rewrite (lookup_instantiations _ _ _ _ _ _ Hi Hname). }
  simpl. split; [by apply occurrence_number_pos|].
  unfold expected_instname, numeric_suffix.
  repeat split.
  - intros ->. simpl. by rewrite app_nil_r_s.
  - intros Hk. destruct (decide _) as [?|_]; [lia|done].
  - intros j Hij Hj. by apply occurrence_number_increasing.
Qed.

Lemma duplicate_suffixes_witness :
  ∃ names name,
    instnames ["fft"; "fir"; "fft"] = Ret names ∧
    names !! 2%nat = Some name ∧
    (∀ vfile w,
       for_blocks 0 ["fft"; "fir"; "fft"]
         (gset_to_gmap 0 (list_to_set ["fft"; "fir"; "fft"])) vfile w
       = (Ret (vfile +:+ PyStr.join (instantiations 0 ["fft"; "fir"; "fft"] names)),
          say ((λ b, "    * " +:+ b) <$> ["fft"; "fir"; "fft"]) w)) ∧
    (∀ args w,
       blocks args = ["fft"; "fir"; "fft"] →
       Z.of_nat (length ["fft"; "fir"; "fft"]) ≤ max_num_blocks args →
       (create_vfiles args w).1
       = Ret (HEADER_TMPL (if fill_with_fifos args then max_num_blocks args
                           else Z.of_nat (length ["fft"; "fir"; "fft"]))
              +:+ PyStr.join (instantiations 0 ["fft"; "fir"; "fft"] names)
              +:+ (if fill_with_fifos args
                   then FILL_FIFO_TMPL (Z.of_nat (length ["fft"; "fir"; "fft"]))
                   else ""))) ∧
    instantiations 0 ["fft"; "fir"; "fft"] names !! 2%nat
    = Some (BLOCK_TMPL "fft" name (Z.of_nat 2)) ∧
    let k := occurrence_number ["fft"; "fir"; "fft"] 2 "fft" in
    1 ≤ k ∧
    (k = 1 → name = "inst_" +:+ "fft") ∧
    (2 ≤ k → name = "inst_" +:+ "fft" +:+ pretty k) ∧
    (∀ j, (2 < j)%nat → ["fft"; "fir"; "fft"] !! j = Some "fft" →
          k < occurrence_number ["fft"; "fir"; "fft"] j "fft").
Proof. apply (duplicate_suffixes ["fft"; "fir"; "fft"] 2 "fft"). reflexivity. Defined.

(** C3. With an empty block list, or one longer than the configured
    maximum, the script prints one error message and terminates with exit
    code 1; no file is written (the whole file store, so the output file
    and the destination source list too, is as before) and the working
    directory is as before. *)
Theorem rejected_block_list (os : OS) (args : Args) (w : World) :
  blocks args = [] ∨ Z.of_nat (length (blocks args)) > max_num_blocks args →
  ∃ msg w',
    script os args w = (Exit 1, w') ∧
    stdout w' = stdout w ++ [msg] ∧
    fs w' = fs w ∧
    cwd w' = cwd w.
Proof.
  intros Hbad.
  assert (∃ msg, create_vfiles args w = (Exit 1, say [msg] w)) as [msg Hcv].
  { destruct Hbad as [Hnil|Hmany].
    - eexists. by apply create_vfiles_empty.
    - by apply create_vfiles_too_many. }
  exists msg, (say [msg] w). split; [|done].
  unfold script, main.
  apply bind_exit. by apply bind_exit.
Qed.

Lemma rejected_block_list_witness :
  ∃ msg w',
    script os_x args_too_many (mk_world [] "/home/user") = (Exit 1, w') ∧
    stdout w' = stdout (mk_world [] "/home/user") ++ [msg] ∧
    fs w' = fs (mk_world [] "/home/user") ∧
    cwd w' = cwd (mk_world [] "/home/user").
Proof.
  apply (rejected_block_list os_x args_too_many (mk_world [] "/home/user")).
  right. simpl. lia.
Defined.

(** C4 (the code breaks it).  The claim: every validation failure ends
    the process with exit code 1.  An include directory without Verilog
    files prints the error message and ends the process with exit code 0:
    [checkdir_v] calls [exit(0)] where [create_vfiles] calls [exit(1)]. *)
Theorem missing_sources_exit_zero :
  let run := script os_x (args_merge "empty/") (mk_world [] "/home/user") in
  run.1 = Exit 0 ∧
  last (stdout run.2) = Some "[ERROR] No verilog files found in the given directory".
Proof. vm_compute. split; reflexivity. Qed.

(** C5 (the code breaks it).  The claim: the entries go right after the
    last occurrence of the anchor line and nowhere else.  On a
    destination list with two anchor lines [str.replace] pastes them
    after both. *)
Theorem entries_pasted_after_every_anchor :
  let run :=
    append_item_into_file os_x (args_merge "oot/")
      (mk_world [(dest_x, dest_two_anchors); ("oot/Makefile.srcs", oot_plain)]
         "/home/user") in
  PyStr.findall linepattern dest_two_anchors = [linepattern; linepattern] ∧
  run.1 = Ret () ∧
  fs run.2 !! dest_x = Some "RFNOC_OOT_SRCS = \
noc_block_gain.v
ifdef SIM
RFNOC_OOT_SRCS = \
noc_block_gain.v
endif
".
Proof. vm_compute. repeat split; reflexivity. Qed.

(** C6 as amended.  When the destination list already holds, for every
    include directory, its prefix line [$(addprefix <dir>, \] and, as
    lines of its own, all the lines of the directory's source list, the
    include-merge step leaves every file as it was. *)
Theorem merge_leaves_patched_list (os : OS) (args : Args) (target_dir : string)
    (dirs : list string) (w : World) (old : string) :
  device_dict (PyStr.lower (device args)) = Ret target_dir →
  include_dir args = Some dirs →
  fs w !! dest_srcs_file os target_dir = Some old →
  Forall (λ d,
    glob os (fs w) (d +:+ "*.v") ≠ [] ∧
    PyStr.findall (prefixpattern d) old ≠ [] ∧
    ∃ srcs, fs w !! oot_srcs_file d = Some srcs ∧
            Forall (λ line, line ∈ PyStr.readlines old) (PyStr.readlines srcs))
    dirs →
  ∃ w', append_item_into_file os args w = (Ret (), w') ∧ fs w' = fs w.
Proof.
  intros Hdev Hinc Hold Hall.
  exists (say (replicate (length dirs) "Verilog sources found!") w).
  split; [|done].
  rewrite (append_item_into_file_dirs _ _ _ _ _ Hdev Hinc).
  by apply (for_include_dirs_all_present os target_dir dirs w old).
Qed.

Lemma merge_leaves_patched_list_witness :
  ∃ w',
    append_item_into_file os_x (args_merge "oot/")
      (mk_world [(dest_x, dest_patched_prefixed);
                 ("oot/Makefile.srcs", oot_prefixed)] "/home/user")
    = (Ret (), w') ∧
    fs w' = fs (mk_world [(dest_x, dest_patched_prefixed);
                          ("oot/Makefile.srcs", oot_prefixed)] "/home/user").
Proof.
  apply (merge_leaves_patched_list os_x (args_merge "oot/") "x300" ["oot/"]
           (mk_world [(dest_x, dest_patched_prefixed);
                      ("oot/Makefile.srcs", oot_prefixed)] "/home/user")
           dest_patched_prefixed).
  - reflexivity.
  - reflexivity.
  - vm_compute. reflexivity.
  - constructor; [|constructor].
    split; [vm_compute; discriminate|].
    split; [vm_compute; discriminate|].
    exists oot_prefixed. split; [vm_compute; reflexivity|].
    apply (bool_decide_unpack _); vm_compute; exact I.
Defined.

(** C6 as worded fails.  A destination list that holds every line of the
    source list, but not the directory's prefix line, gets the source
    list pasted after the anchor once more. *)
Lemma merge_keeps_list_with_entries_fails : ¬ merge_keeps_list_with_entries.
Proof.
  intros Hclaim.
  destruct (Hclaim os_x (args_merge "oot/") "x300" "oot/"
              (mk_world [(dest_x, dest_patched_plain);
                         ("oot/Makefile.srcs", oot_plain)] "/home/user")
              dest_patched_plain oot_plain) as (w' & Hrun & Hdest).
  - reflexivity.
  - reflexivity.
  - vm_compute. discriminate.
  - vm_compute. reflexivity.
  - vm_compute. reflexivity.
  - apply (bool_decide_unpack _); vm_compute; exact I.
  - apply (f_equal snd) in Hrun. simpl in Hrun. subst w'.
    vm_compute in Hdest. discriminate Hdest.
Qed.

(** C7 as amended.  When the destination list holds neither the
    directory's prefix line nor the anchor line, the include-merge step
    prints a message and returns: no file is changed, and the include
    directories after this one are not visited. *)
Theorem merge_without_anchor_leaves_list (os : OS) (args : Args)
    (target_dir d : string) (rest : list string) (w : World) (old : string) :
  device_dict (PyStr.lower (device args)) = Ret target_dir →
  include_dir args = Some (d :: rest) →
  glob os (fs w) (d +:+ "*.v") ≠ [] →
  fs w !! dest_srcs_file os target_dir = Some old →
  PyStr.findall (prefixpattern d) old = [] →
  PyStr.findall linepattern old = [] →
  ∃ w',
    append_item_into_file os args w = (Ret (), w') ∧
    fs w' = fs w ∧
    stdout w' = stdout w
                ++ ["Verilog sources found!";
                    "Pattern " +:+ PyStr.re_escape linepattern
                    +:+ " not found. Could not write " +:+ old +:+ " file"].
Proof.
  intros Hdev Hinc Hg Hold Hprefix Hanchor.
  eexists (say [_; _] w). split; [|done].
  rewrite (append_item_into_file_dirs _ _ _ _ _ Hdev Hinc).
  by apply for_include_dirs_no_anchor.
Qed.

Lemma merge_without_anchor_leaves_list_witness :
  ∃ w',
    append_item_into_file os_x (args_merge "oot/")
      (mk_world [(dest_x, dest_no_anchor); ("oot/Makefile.srcs", oot_plain)]
         "/home/user")
    = (Ret (), w') ∧
    fs w' = fs (mk_world [(dest_x, dest_no_anchor);
                          ("oot/Makefile.srcs", oot_plain)] "/home/user") ∧
    stdout w' = stdout (mk_world [(dest_x, dest_no_anchor);
                                  ("oot/Makefile.srcs", oot_plain)] "/home/user")
                ++ ["Verilog sources found!";
                    "Pattern " +:+ PyStr.re_escape linepattern
                    +:+ " not found. Could not write " +:+ dest_no_anchor
                    +:+ " file"].
Proof.
  apply (merge_without_anchor_leaves_list os_x (args_merge "oot/") "x300" "oot/" []
           (mk_world [(dest_x, dest_no_anchor); ("oot/Makefile.srcs", oot_plain)]
              "/home/user") dest_no_anchor).
  - reflexivity.
  - reflexivity.
  - vm_compute. discriminate.
  - vm_compute. reflexivity.
  - vm_compute. reflexivity.
  - vm_compute. reflexivity.
Defined.

(** C7 as worded fails: without anchor line nothing is appended, the
    destination list stays as it was. *)
Lemma merge_appends_without_anchor_fails : ¬ merge_appends_without_anchor.
Proof.
  intros Hclaim.
  destruct (Hclaim os_x (args_merge "oot/") "x300" "oot/"
              (mk_world [(dest_x, dest_no_anchor);
                         ("oot/Makefile.srcs", oot_plain)] "/home/user")
              dest_no_anchor oot_plain) as (w' & Hrun & Hdest).
  - reflexivity.
  - reflexivity.
  - vm_compute. discriminate.
  - vm_compute. reflexivity.
  - vm_compute. reflexivity.
  - vm_compute. reflexivity.
  - vm_compute. reflexivity.
  - apply (f_equal snd) in Hrun. simpl in Hrun. subst w'.
    vm_compute in Hdest. discriminate Hdest.
Qed.

(** C8 as amended.  For a block list of accepted length the renderer
    returns the header text, with [NUM_CE] the maximum when filling is
    requested and the number of blocks otherwise, then one instantiation
    per entry in input order (block name, instance name, slot index [i]
    for entry [i]), then, when filling is requested, the loopback loop
    starting at the number of blocks and running below [NUM_CE]. *)
Theorem rendered_text_layout (args : Args) (w : World) :
  (1 ≤ length (blocks args))%nat →
  Z.of_nat (length (blocks args)) ≤ max_num_blocks args →
  ∃ names w',
    instnames (blocks args) = Ret names ∧
    length names = length (blocks args) ∧
    create_vfiles args w
    = (Ret (HEADER_TMPL (if fill_with_fifos args then max_num_blocks args
                         else Z.of_nat (length (blocks args)))
            +:+ PyStr.join (instantiations 0 (blocks args) names)
            +:+ (if fill_with_fifos args
                 then FILL_FIFO_TMPL (Z.of_nat (length (blocks args))) else "")),
       w') ∧
    length (instantiations 0 (blocks args) names) = length (blocks args) ∧
    ∀ i b n, blocks args !! i = Some b → names !! i = Some n →
      instantiations 0 (blocks args) names !! i = Some (BLOCK_TMPL b n (Z.of_nat i)).
Proof.
  intros Hmin Hmax.
  eexists _, _. split; [apply instnames_expected|].
  split; [apply length_imap|].
  split; [by apply create_vfiles_rendered|].
  split; [apply length_instantiations, length_imap|].
  intros i b n Hb Hn. by rewrite (lookup_instantiations _ _ _ _ _ _ Hb Hn).
Qed.

Lemma rendered_text_layout_witness :
  ∃ names w',
    instnames (blocks (args_one true)) = Ret names ∧
    length names = length (blocks (args_one true)) ∧
    create_vfiles (args_one true) (mk_world [] "/home/user")
    = (Ret (HEADER_TMPL (if fill_with_fifos (args_one true)
                         then max_num_blocks (args_one true)
                         else Z.of_nat (length (blocks (args_one true))))
            +:+ PyStr.join (instantiations 0 (blocks (args_one true)) names)
            +:+ (if fill_with_fifos (args_one true)
                 then FILL_FIFO_TMPL (Z.of_nat (length (blocks (args_one true))))
                 else "")),
       w') ∧
    length (instantiations 0 (blocks (args_one true)) names)
    = length (blocks (args_one true)) ∧
    ∀ i b n, blocks (args_one true) !! i = Some b → names !! i = Some n →
      instantiations 0 (blocks (args_one true)) names !! i
      = Some (BLOCK_TMPL b n (Z.of_nat i)).
Proof.
  apply (rendered_text_layout (args_one true) (mk_world [] "/home/user")).
  - simpl. lia.
  - simpl. lia.
Defined.

(** C8 as worded fails: without the fill flag, one block and a maximum
    of 10 give [NUM_CE = 1], not 10. *)
Lemma header_sized_to_maximum_fails : ¬ header_sized_to_maximum.
Proof.
  intros Hclaim.
  destruct (Hclaim (args_one false) (mk_world [] "/home/user"))
    as (names & w' & Hnames & Hout); [simpl; lia..|].
  rewrite create_vfiles_rendered in Hout by (simpl; lia).
  vm_compute in Hnames. injection Hnames as <-.
  vm_compute in Hout. discriminate Hout.
Qed.

(** C9 (the code breaks it).  The claim: the build step runs the build
    command in the build directory and then returns to the directory that
    was current before.  Started in [/home/user], the script ends in its
    own directory: [build] calls [os.chdir] on [get_scriptpath()].  The
    value of [os.system] is what the script passes to [exit]. *)
Theorem build_ends_in_script_directory :
  let before := mk_world [] "/home/user" in
  let run := script os_x args_build before in
  run.1 = Exit 512 ∧
  cwd run.2 = "/opt/fpga/usrp3/tools/scripts" ∧
  cwd run.2 ≠ cwd before.
Proof. vm_compute. repeat split; [reflexivity..|discriminate]. Qed.

(** C10. [device_dict] accepts [e300] and maps it to [e300]; without an
    explicit target [dtarget] raises [KeyError] on [e300], and gives the
    default target on [x300], [x310] and [e310]. *)
Theorem e300_has_no_default_target :
  device_dict "e300" = Ret "e300" ∧
  ∀ incl max fill out gui blks,
    let args dev := {| include_dir := incl; max_num_blocks := max;
                       fill_with_fifos := fill; outfile := out; device := dev;
                       target := None; GUI := gui; blocks := blks |} in
    dtarget (args "e300") = Raise (KeyError "e300") ∧
    dtarget (args "x300") = Ret "X300_RFNOC_HG" ∧
    dtarget (args "x310") = Ret "X310_RFNOC_HG" ∧
    dtarget (args "e310") = Ret "E310_RFNOC_HLS".
Proof. split; [by vm_compute|]. intros. repeat split; by vm_compute. Qed.

(** * Further properties of the script *)

(** ** create_vfiles *)

Lemma create_vfiles_cases args w :
  (blocks args = [] ∨ Z.of_nat (length (blocks args)) > max_num_blocks args) ∧
  (∃ msg, create_vfiles args w = (Exit 1, say [msg] w))
  ∨ ((1 ≤ length (blocks args))%nat ∧
     Z.of_nat (length (blocks args)) ≤ max_num_blocks args).
Proof.
  destruct (blocks args) as [|b bs] eqn:Hb.
  - left. split; [by left|]. eexists. by apply create_vfiles_empty.
  - destruct (decide (Z.of_nat (length (blocks args)) > max_num_blocks args))
      as [Hmany|Hfew].
    + left. rewrite <- Hb. split; [by right|]. by apply create_vfiles_too_many.
    + right. rewrite Hb in Hfew. simpl in *. lia.
Qed.




(** X3. In every text [create_vfiles] returns, the number of
    instantiated blocks is at least 1 and at most [NUM_CE], and [NUM_CE]
    is at most the configured maximum: every slot index wired to a block
    is below [NUM_CE]. *)
Theorem slots_within_num_ce (args : Args) (w w' : World) (vfile : string) :
  create_vfiles args w = (Ret vfile, w') →
  ∃ num_ce names,
    vfile = HEADER_TMPL num_ce
            +:+ PyStr.join (instantiations 0 (blocks args) names)
            +:+ (if fill_with_fifos args
                 then FILL_FIFO_TMPL (Z.of_nat (length (blocks args))) else "") ∧
    length names = length (blocks args) ∧
    1 ≤ Z.of_nat (length (blocks args)) ≤ num_ce ∧
    num_ce ≤ max_num_blocks args.
Proof.
  intros Hrun.
  destruct (create_vfiles_cases args w) as [[_ [msg Hbad]]|[Hmin Hmax]];
    [congruence|].
  rewrite create_vfiles_rendered in Hrun by done. injection Hrun as <- <-.
  eexists _, _. split; [done|]. split; [apply length_imap|].
  destruct (fill_with_fifos args); lia.
Qed.

Lemma slots_within_num_ce_witness :
  let run := create_vfiles (args_one true) (mk_world [] "/home/user") in
  ∃ num_ce names,
    value_of "" run
    = HEADER_TMPL num_ce
      +:+ PyStr.join (instantiations 0 (blocks (args_one true)) names)
      +:+ (if fill_with_fifos (args_one true)
           then FILL_FIFO_TMPL (Z.of_nat (length (blocks (args_one true))))
           else "") ∧
    length names = length (blocks (args_one true)) ∧
    1 ≤ Z.of_nat (length (blocks (args_one true))) ≤ num_ce ∧
    num_ce ≤ max_num_blocks (args_one true).
Proof.
  intros run.
  apply (slots_within_num_ce (args_one true) (mk_world [] "/home/user") run.2).
  vm_compute. reflexivity.
Defined.

(** ** device_dict, dtarget and file_generator *)

Lemma bind_raise {A B} (m : M A) (k : A → M B) w e w' :
  m w = (Raise e, w') → (m ≫= k) w = (Raise e, w').
Proof. intros H. unfold mbind, M_bind. by rewrite H. Qed.

Lemma device_dict_unknown name :
  name ∉ ["x300"; "x310"; "e300"; "e310"] →
  device_dict name = Raise (KeyError name).
Proof.
  intros Hname. unfold device_dict, getitem.
  by rewrite (not_elem_of_list_to_map_1 _ name).
Qed.

Lemma file_generator_known os args vfile w top :
  device_dict (PyStr.lower (device args)) = Ret top →
  file_generator os args vfile w
  = (Ret (),
     written (match outfile args with
              | Some out => out
              | None => scriptpath os +:+ "/../../top/" +:+ top
                        +:+ "/rfnoc_ce_auto_inst_" +:+ device args +:+ ".v"
              end) vfile
       (say ["Adding CE instantiation file for '"
             +:+ PyStr.str_opt (target args) +:+ "'"] w)).
Proof.
  intros Hdev. unfold file_generator, get_scriptpath. rewrite Hdev.
  unfold mbind, M_bind, mret, M_ret, lift. rewrite print_say.
  by destruct (outfile args).
Qed.

(** X4. Without [-t], [dtarget] looks the device up as it was typed:
    a device name that is not literally [x300], [x310] or [e310] raises
    [KeyError], also one that [device_dict] accepts after lower-casing. *)
Theorem dtarget_wants_exact_device (args : Args) :
  target args = None →
  device args ∉ ["x300"; "x310"; "e310"] →
  dtarget args = Raise (KeyError (device args)).
Proof.
  intros Htarget Hdev. unfold dtarget, getitem. rewrite Htarget.
  by rewrite (not_elem_of_list_to_map_1 _ (device args)).
Qed.

Lemma dtarget_wants_exact_device_witness :
  device_dict (PyStr.lower (device (args_device "X310" None None false)))
  = Ret "x300" ∧
  dtarget (args_device "X310" None None false) = Raise (KeyError "X310").
Proof.
  split; [vm_compute; reflexivity|].
  apply (dtarget_wants_exact_device (args_device "X310" None None false)).
  - reflexivity.
  - apply (bool_decide_unpack _); vm_compute; exact I.
Defined.

(** X5. With a device name that is not [x300], [x310], [e300] or
    [e310] after lower-casing, [file_generator] raises [KeyError]
    before it opens any file: nothing is written, with or without [-o].
    For an ASCII name the key is the lower-cased name. *)
Theorem file_generator_unknown_device (os : OS) (args : Args) (vfile : string)
    (w : World) :
  PyStr.lower (device args) ∉ ["x300"; "x310"; "e300"; "e310"] →
  ∃ key w',
    file_generator os args vfile w = (Raise (KeyError key), w') ∧
    fs w' = fs w ∧
    (ascii_only (device args) = true → key = PyStr.lower (device args)).
Proof.
  intros Hdev. eexists _, (say [_] w). split; [|done].
  unfold file_generator, get_scriptpath.
  rewrite (device_dict_unknown _ Hdev).
  unfold mbind, M_bind, mret, M_ret, lift. by rewrite print_say.
Qed.

Lemma file_generator_unknown_device_witness :
  ∃ key w',
    file_generator os_x (args_device "N210" None (Some "out.v") false) "text"
      (mk_world [] "/home/user")
    = (Raise (KeyError key), w') ∧
    fs w' = fs (mk_world [] "/home/user") ∧
    (ascii_only (device (args_device "N210" None (Some "out.v") false)) = true →
     key = PyStr.lower (device (args_device "N210" None (Some "out.v") false))).
Proof.
  apply (file_generator_unknown_device os_x
           (args_device "N210" None (Some "out.v") false) "text"
           (mk_world [] "/home/user")).
  apply (bool_decide_unpack _); vm_compute; exact I.
Defined.

(** X6. With a known device and the output file already there,
    [file_generator] replaces the text of exactly that file and leaves
    every other file as it was: the [-o] path when given, else
    [rfnoc_ce_auto_inst_<device>.v], with the device as typed, in the
    [top] directory of the lower-cased device. *)
Theorem file_generator_writes_one_file (os : OS) (args : Args) (vfile : string)
    (w : World) (top : string) :
  device_dict (PyStr.lower (device args)) = Ret top →
  let path := match outfile args with
              | Some out => out
              | None => scriptpath os +:+ "/../../top/" +:+ top
                        +:+ "/rfnoc_ce_auto_inst_" +:+ device args +:+ ".v"
              end in
  is_Some (fs w !! path) →
  ∃ w',
    file_generator os args vfile w = (Ret (), w') ∧
    fs w' !! path = Some vfile ∧
    (∀ p, p ≠ path → fs w' !! p = fs w !! p) ∧
    cwd w' = cwd w.
Proof.
  intros Hdev path _. eexists. split; [by apply file_generator_known|].
  simpl. split; [apply lookup_insert_eq|]. split; [|done].
  intros p Hp. by apply lookup_insert_ne.
Qed.

Lemma file_generator_writes_one_file_witness :
  let args := args_device "X310" None None false in
  let path := "/opt/fpga/usrp3/tools/scripts/../../top/x300/rfnoc_ce_auto_inst_X310.v" in
  let w := mk_world [(path, "previous text")] "/home/user" in
  ∃ w',
    file_generator os_x args "text" w = (Ret (), w') ∧
    fs w' !! path = Some "text" ∧
    (∀ p, p ≠ path → fs w' !! p = fs w !! p) ∧
    cwd w' = cwd w.
Proof.
  intros args path w.
  apply (file_generator_writes_one_file os_x args "text" w "x300").
  - vm_compute. reflexivity.
  - vm_compute. eexists. reflexivity.
Defined.

(** ** build *)

(** X7. When the build directory exists and the target resolves,
    [build] runs, in the build directory, the command
    [source ./setupenv.sh && make <target>], followed by [ GUI=1] when
    asked for; it returns the value of [os.system], leaves the files as
    the command left them and ends in the directory of the script. *)
Theorem build_runs_make (os : OS) (args : Args) (w : World) (top trgt : string) :
  device_dict (PyStr.lower (device args)) = Ret top →
  dtarget args = Ret trgt →
  let build_dir := PyStr.path_join (scriptpath os) [".."; ".."; "top"; top] in
  let make_cmd := "source ./setupenv.sh && make " +:+ trgt
                  +:+ (if GUI args then " GUI=1" else "") in
  isdir os (fs w) build_dir = true →
  ∃ w',
    build os args w = (Ret (system os (fs w) build_dir make_cmd).1, w') ∧
    fs w' = (system os (fs w) build_dir make_cmd).2 ∧
    cwd w' = scriptpath os.
Proof.
  intros Hdev Htrgt build_dir make_cmd Hdir. eexists.
  split; [by apply (build_runs os args w top trgt)|done].
Qed.

Lemma build_runs_make_witness :
  let args := args_device "e310" None None true in
  let w := mk_world [] "/home/user" in
  let build_dir := "/opt/fpga/usrp3/tools/scripts/../../top/e300" in
  let make_cmd := "source ./setupenv.sh && make E310_RFNOC_HLS GUI=1" in
  ∃ w',
    build os_x args w = (Ret (system os_x (fs w) build_dir make_cmd).1, w') ∧
    fs w' = (system os_x (fs w) build_dir make_cmd).2 ∧
    cwd w' = scriptpath os_x.
Proof.
  intros args w build_dir make_cmd.
  apply (build_runs_make os_x args w "e300" "E310_RFNOC_HLS").
  - vm_compute. reflexivity.
  - vm_compute. reflexivity.
  - reflexivity.
Defined.

(** X8. When the build directory does not exist, [build] raises
    [UnboundLocalError] for [ret_val]: nothing is printed, no command is
    run and the working directory is kept. *)
Theorem build_missing_directory (os : OS) (args : Args) (w : World) (top : string) :
  device_dict (PyStr.lower (device args)) = Ret top →
  isdir os (fs w) (PyStr.path_join (scriptpath os) [".."; ".."; "top"; top])
  = false →
  build os args w = (Raise (UnboundLocalError "ret_val"), w).
Proof. apply build_without_directory. Qed.

Lemma build_missing_directory_witness :
  build os_bare (args_device "x310" None None false) (mk_world [] "/home/user")
  = (Raise (UnboundLocalError "ret_val"), mk_world [] "/home/user").
Proof.
  apply (build_missing_directory os_bare (args_device "x310" None None false)
           (mk_world [] "/home/user") "x300").
  - vm_compute. reflexivity.
  - reflexivity.
Defined.

(** X9. When the default target lookup fails, [build] has already
    printed its line and changed into the build directory: the exception
    leaves the process there, and the build command has not been run. *)
Theorem build_target_failure (os : OS) (args : Args) (w : World) (top : string)
    (e : exn) :
  device_dict (PyStr.lower (device args)) = Ret top →
  dtarget args = Raise e →
  let build_dir := PyStr.path_join (scriptpath os) [".."; ".."; "top"; top] in
  isdir os (fs w) build_dir = true →
  ∃ w',
    build os args w = (Raise e, w') ∧
    cwd w' = build_dir ∧
    fs w' = fs w ∧
    stdout w' = stdout w
                ++ ["changing temporarily working directory to " +:+ build_dir].
Proof.
  intros Hdev Htrgt build_dir Hdir.
  exists {| fs := fs w;
            stdout := stdout w
                      ++ ["changing temporarily working directory to " +:+ build_dir];
            cwd := build_dir |}.
  split; [|done].
  unfold build, get_scriptpath. rewrite Hdev, Htrgt.
  unfold mbind, M_bind, mret, M_ret, lift, os_path_isdir, chdir.
  cbn beta iota. fold build_dir. by rewrite Hdir.
Qed.

Lemma build_target_failure_witness :
  let args := args_device "e300" None None false in
  let w := mk_world [] "/home/user" in
  ∃ w',
    build os_x args w = (Raise (KeyError "e300"), w') ∧
    cwd w' = "/opt/fpga/usrp3/tools/scripts/../../top/e300" ∧
    fs w' = fs w ∧
    stdout w' = stdout w
                ++ ["changing temporarily working directory to "
                    +:+ "/opt/fpga/usrp3/tools/scripts/../../top/e300"].
Proof.
  intros args w.
  apply (build_target_failure os_x args w "e300" (KeyError "e300")).
  - vm_compute. reflexivity.
  - vm_compute. reflexivity.
  - reflexivity.
Defined.

(** ** The include-merge step, directory by directory *)

Lemma read_file_absent path w :
  fs w !! path = None → read_file path w = (Raise (IOError path), w).
Proof. intros H. unfold read_file. by rewrite H. Qed.

(** One include directory: either the step ends there, having only
    printed, or the destination list is rewritten and the step goes on
    with the remaining directories. *)
Lemma for_include_dirs_step os target_dir d rest w :
  (∃ r lines, for_include_dirs os target_dir (d :: rest) w = (r, say lines w))
  ∨ (∃ newfile,
       for_include_dirs os target_dir (d :: rest) w
       = for_include_dirs os target_dir rest
           (written (dest_srcs_file os target_dir) newfile
              (say ["Verilog sources found!"] w))).
Proof.
  cbn [for_include_dirs].
  destruct (glob os (fs w) (d +:+ "*.v")) as [|f fs'] eqn:Hg.
  { left. rewrite (bind_exit _ _ _ _ _ (checkdir_v_missing os d w Hg)).
    by eexists _, _. }
  rewrite (bind_ret _ _ _ _ _ (checkdir_v_found os d w ltac:(by rewrite Hg))).
  destruct (fs w !! dest_srcs_file os target_dir) as [old|] eqn:Hold; cycle 1.
  { left. rewrite (bind_raise _ _ _ _ _
      (read_file_absent _ (say ["Verilog sources found!"] w) Hold)).
    by eexists _, _. }
  rewrite (bind_ret _ _ _ old _
             (read_file_present _ _ (say ["Verilog sources found!"] w) Hold)).
  destruct (fs w !! oot_srcs_file d) as [srcs|] eqn:Hsrcs.
  - destruct (decide (length (PyStr.findall (prefixpattern d) old) = 0%nat)).
    + destruct (decide (length (PyStr.findall linepattern old) = 0%nat)).
      * left. rewrite print_say, say_say. by eexists _, _.
      * right. unfold readfile.
        erewrite bind_ret; [|erewrite bind_ret; [|by apply read_file_present]; done].
        erewrite bind_ret; [|done]. by eexists.
    + right. unfold compare.
      erewrite bind_ret;
        [|erewrite bind_ret; [|by apply read_file_present];
          erewrite bind_ret; [|by apply read_file_present]; done].
      erewrite bind_ret; [|done]. by eexists.
  - left.
    destruct (decide (length (PyStr.findall (prefixpattern d) old) = 0%nat)).
    + destruct (decide (length (PyStr.findall linepattern old) = 0%nat)).
      * rewrite print_say, say_say. by eexists _, _.
      * unfold readfile.
        erewrite bind_raise; [by eexists _, _|].
        erewrite bind_raise; [done|]. by apply read_file_absent.
    + unfold compare.
      erewrite bind_raise; [by eexists _, _|].
      erewrite bind_raise; [done|]. by apply read_file_absent.
Qed.

Lemma for_include_dirs_frame os target_dir dirs : ∀ w r w',
  for_include_dirs os target_dir dirs w = (r, w') →
  cwd w' = cwd w ∧
  ∀ p, p ≠ dest_srcs_file os target_dir → fs w' !! p = fs w !! p.
Proof.
  induction dirs as [|d dirs IH]; intros w r w' Hrun.
  - simpl in Hrun. by injection Hrun as <- <-.
  - destruct (for_include_dirs_step os target_dir d dirs w)
      as [(r0 & lines & Hstop)|(newfile & Hgo)].
    + rewrite Hstop in Hrun. by injection Hrun as <- <-.
    + rewrite Hgo in Hrun. apply IH in Hrun as [Hcwd Hfs]. split; [done|].
      intros p Hp. rewrite (Hfs p Hp). simpl. by apply lookup_insert_ne.
Qed.

(** X10. Whatever its outcome, the include-merge step keeps the working
    directory and changes no file other than the destination list
    [top/<dir>/Makefile.srcs]. *)
Theorem merge_touches_only_destination (os : OS) (args : Args) (top : string)
    (w w' : World) (r : outcome unit) :
  device_dict (PyStr.lower (device args)) = Ret top →
  append_item_into_file os args w = (r, w') →
  cwd w' = cwd w ∧
  ∀ p, p ≠ dest_srcs_file os top → fs w' !! p = fs w !! p.
Proof.
  intros Hdev Hrun. unfold append_item_into_file in Hrun. rewrite Hdev in Hrun.
  unfold mbind, M_bind, lift in Hrun.
  destruct (include_dir args) as [dirs|].
  - by apply (for_include_dirs_frame os top dirs w r w').
  - by injection Hrun as <- <-.
Qed.

Lemma merge_touches_only_destination_witness :
  let w := mk_world [(dest_x, dest_fresh); ("oot/Makefile.srcs", oot_plain)]
             "/home/user" in
  let run := append_item_into_file os_x (args_merge "oot/") w in
  cwd run.2 = cwd w ∧
  ∀ p, p ≠ dest_srcs_file os_x "x300" → fs run.2 !! p = fs w !! p.
Proof.
  intros w run.
  apply (merge_touches_only_destination os_x (args_merge "oot/") "x300" w run.2
           run.1).
  - vm_compute. reflexivity.
  - apply surjective_pairing.
Defined.

Lemma append_item_into_file_empty_directory os args top d rest w :
  device_dict (PyStr.lower (device args)) = Ret top →
  include_dir args = Some (d :: rest) →
  glob os (fs w) (d +:+ "*.v") = [] →
  append_item_into_file os args w
  = (Exit 0, say ["[ERROR] No verilog files found in the given directory"] w).
Proof.
  intros Hdev Hinc Hg.
  rewrite (append_item_into_file_dirs _ _ _ _ _ Hdev Hinc). cbn [for_include_dirs].
  by rewrite (bind_exit _ _ _ _ _ (checkdir_v_missing os d w Hg)).
Qed.

(** X11. An include directory without Verilog files ends the whole
    script from inside the merge, with exit code 0: the destination list
    is not read or written for it and the directories after it are not
    visited. *)
Theorem merge_stops_at_empty_directory (os : OS) (args : Args) (top d : string)
    (rest : list string) (w : World) :
  device_dict (PyStr.lower (device args)) = Ret top →
  include_dir args = Some (d :: rest) →
  glob os (fs w) (d +:+ "*.v") = [] →
  append_item_into_file os args w
  = (Exit 0, say ["[ERROR] No verilog files found in the given directory"] w).
Proof. apply append_item_into_file_empty_directory. Qed.

Lemma merge_stops_at_empty_directory_witness :
  append_item_into_file os_x (args_merge "empty/") (mk_world [] "/home/user")
  = (Exit 0, say ["[ERROR] No verilog files found in the given directory"]
               (mk_world [] "/home/user")).
Proof.
  apply (merge_stops_at_empty_directory os_x (args_merge "empty/") "x300"
           "empty/" [] (mk_world [] "/home/user")).
  - vm_compute. reflexivity.
  - reflexivity.
  - reflexivity.
Defined.

(** X12. When the destination list [top/<dir>/Makefile.srcs] does not
    exist, the merge raises [IOError] for it and writes nothing. *)
Theorem merge_missing_destination (os : OS) (args : Args) (top d : string)
    (rest : list string) (w : World) :
  device_dict (PyStr.lower (device args)) = Ret top →
  include_dir args = Some (d :: rest) →
  glob os (fs w) (d +:+ "*.v") ≠ [] →
  fs w !! dest_srcs_file os top = None →
  append_item_into_file os args w
  = (Raise (IOError (dest_srcs_file os top)), say ["Verilog sources found!"] w).
Proof.
  intros Hdev Hinc Hg Hold.
  rewrite (append_item_into_file_dirs _ _ _ _ _ Hdev Hinc). cbn [for_include_dirs].
  rewrite (bind_ret _ _ _ _ _ (checkdir_v_found os d w Hg)).
  by rewrite (bind_raise _ _ _ _ _
                (read_file_absent _ (say ["Verilog sources found!"] w) Hold)).
Qed.

Lemma merge_missing_destination_witness :
  append_item_into_file os_x (args_merge "oot/") (mk_world [] "/home/user")
  = (Raise (IOError (dest_srcs_file os_x "x300")),
     say ["Verilog sources found!"] (mk_world [] "/home/user")).
Proof.
  apply (merge_missing_destination os_x (args_merge "oot/") "x300" "oot/" []
           (mk_world [] "/home/user")).
  - vm_compute. reflexivity.
  - reflexivity.
  - vm_compute. discriminate.
  - vm_compute. reflexivity.
Defined.

(** X13. When the include directory has Verilog files but no
    [Makefile.srcs], and the destination list holds the anchor or the
    directory's prefix line, the merge raises [IOError] for the missing
    source list and leaves the destination list as it was. *)
Theorem merge_missing_source_list (os : OS) (args : Args) (top d : string)
    (rest : list string) (w : World) (old : string) :
  device_dict (PyStr.lower (device args)) = Ret top →
  include_dir args = Some (d :: rest) →
  glob os (fs w) (d +:+ "*.v") ≠ [] →
  fs w !! dest_srcs_file os top = Some old →
  fs w !! oot_srcs_file d = None →
  PyStr.findall (prefixpattern d) old ≠ [] ∨ PyStr.findall linepattern old ≠ [] →
  append_item_into_file os args w
  = (Raise (IOError (oot_srcs_file d)), say ["Verilog sources found!"] w).
Proof.
  intros Hdev Hinc Hg Hold Hsrcs Hfound.
  rewrite (append_item_into_file_dirs _ _ _ _ _ Hdev Hinc). cbn [for_include_dirs].
  rewrite (bind_ret _ _ _ _ _ (checkdir_v_found os d w Hg)).
  rewrite (bind_ret _ _ _ old _
             (read_file_present _ _ (say ["Verilog sources found!"] w) Hold)).
  destruct (PyStr.findall (prefixpattern d) old) as [|x xs] eqn:Hp.
  - destruct Hfound as [?|Hanchor]; [done|].
    destruct (PyStr.findall linepattern old) as [|y ys] eqn:Ha; [done|].
    simpl. unfold readfile.
    erewrite bind_raise; [done|].
    erewrite bind_raise; [done|]. by apply read_file_absent.
  - simpl. unfold compare.
    erewrite bind_raise; [done|].
    erewrite bind_raise; [done|]. by apply read_file_absent.
Qed.

Lemma merge_missing_source_list_witness :
  append_item_into_file os_x (args_merge "oot/")
    (mk_world [(dest_x, dest_fresh)] "/home/user")
  = (Raise (IOError (oot_srcs_file "oot/")),
     say ["Verilog sources found!"] (mk_world [(dest_x, dest_fresh)] "/home/user")).
Proof.
  apply (merge_missing_source_list os_x (args_merge "oot/") "x300" "oot/" []
           (mk_world [(dest_x, dest_fresh)] "/home/user") dest_fresh).
  - vm_compute. reflexivity.
  - reflexivity.
  - vm_compute. discriminate.
  - vm_compute. reflexivity.
  - vm_compute. reflexivity.
  - right. vm_compute. discriminate.
Defined.

(** X14. When the destination list holds the anchor line exactly once
    and not the directory's prefix line, the merge puts the whole source
    list right after the anchor and keeps the text before and after it. *)
Theorem merge_pastes_after_single_anchor (os : OS) (args : Args) (top d : string)
    (w : World) (old srcs : string) :
  device_dict (PyStr.lower (device args)) = Ret top →
  include_dir args = Some [d] →
  glob os (fs w) (d +:+ "*.v") ≠ [] →
  fs w !! dest_srcs_file os top = Some old →
  fs w !! oot_srcs_file d = Some srcs →
  PyStr.findall (prefixpattern d) old = [] →
  PyStr.findall linepattern old = [linepattern] →
  ∃ pre post w',
    old = pre +:+ linepattern +:+ post ∧
    append_item_into_file os args w = (Ret (), w') ∧
    fs w' !! dest_srcs_file os top
    = Some (pre +:+ (linepattern +:+ PyStr.join (PyStr.readlines srcs)) +:+ post).
Proof. apply merge_single_anchor. Qed.

Lemma merge_pastes_after_single_anchor_witness :
  let w := mk_world [(dest_x, dest_fresh); ("oot/Makefile.srcs", oot_plain)]
             "/home/user" in
  ∃ pre post w',
    dest_fresh = pre +:+ linepattern +:+ post ∧
    append_item_into_file os_x (args_merge "oot/") w = (Ret (), w') ∧
    fs w' !! dest_srcs_file os_x "x300"
    = Some (pre +:+ (linepattern +:+ PyStr.join (PyStr.readlines oot_plain))
            +:+ post).
Proof.
  intros w.
  apply (merge_pastes_after_single_anchor os_x (args_merge "oot/") "x300" "oot/"
           w dest_fresh oot_plain).
  - vm_compute. reflexivity.
  - reflexivity.
  - vm_compute. discriminate.
  - vm_compute. reflexivity.
  - vm_compute. reflexivity.
  - vm_compute. reflexivity.
  - vm_compute. reflexivity.
Defined.

(** ** Lines of a file *)

Lemma rev_app_app a : ∀ b c, String.rev_app a b +:+ c = String.rev_app a (b +:+ c).
Proof. induction a as [|x a IH]; intros b c; [done|]. simpl. by rewrite IH. Qed.

Lemma join_readlines_go s : ∀ cur,
  PyStr.join (PyStr.readlines_go cur s) = String.rev_app cur s.
Proof.
  induction s as [|c s IH]; intros cur; simpl.
  - destruct cur; [done|]. simpl. by rewrite app_nil_r_s.
  - destruct (decide (c = "010"%char)) as [->|Hc]; simpl.
    + rewrite IH. unfold String.rev. simpl. by rewrite rev_app_app.
    + by rewrite IH.
Qed.

Lemma join_readlines s : PyStr.join (PyStr.readlines s) = s.
Proof. unfold PyStr.readlines. by rewrite join_readlines_go. Qed.


Lemma readlines_go_app a : ∀ cur b,
  PyStr.readlines_go cur ((a +:+ PyStr.nl) +:+ b)
  = PyStr.readlines_go cur (a +:+ PyStr.nl) ++ PyStr.readlines_go "" b.
Proof.
  induction a as [|c a IH]; intros cur b.
  - done.
  - rewrite !app_cons_s. simpl.
    destruct (decide (c = "010"%char)); by rewrite IH.
Qed.

Lemma readlines_app a b :
  PyStr.readlines ((a +:+ PyStr.nl) +:+ b)
  = PyStr.readlines (a +:+ PyStr.nl) ++ PyStr.readlines b.
Proof. apply readlines_go_app. Qed.

Lemma ends_with_newline_split s :
  ends_with_newline s = true → ∃ s', s = s' +:+ PyStr.nl.
Proof.
  induction s as [|c s IH]; [done|]. simpl.
  destruct s as [|c' s].
  - intros ->%bool_decide_eq_true. by exists "".
  - intros [s' Hs']%IH. exists (String c s'). by rewrite app_cons_s, <- Hs'.
Qed.





(** ** Running the merge twice *)

Lemma startswith_app p r : PyStr.startswith p (p +:+ r) = true.
Proof.
  induction p as [|a p IH]; [done|].
  rewrite app_cons_s. simpl. by rewrite decide_True.
Qed.

Lemma findall_occurrence a' pat' : ∀ a b,
  PyStr.findall (String a' pat') (a +:+ String a' pat' +:+ b) ≠ [].
Proof.
  unfold PyStr.findall. induction a as [|x a IH]; intros b.
  - change ("" +:+ String a' pat' +:+ b) with (String a' pat' +:+ b).
    pose proof (startswith_app (String a' pat') b) as Hp.
    rewrite app_cons_s in *. cbn [PyStr.findall_go]. by rewrite Hp.
  - rewrite app_cons_s. cbn [PyStr.findall_go].
    destruct (PyStr.startswith _ _); [done|apply IH].
Qed.

Lemma occurrence_findall pat : ∀ s skip,
  PyStr.findall_go pat skip s ≠ [] → ∃ a b, s = a +:+ pat +:+ b.
Proof.
  induction s as [|c s IH]; intros skip Hf; [done|].
  destruct skip as [|k]; cbn [PyStr.findall_go] in Hf.
  - destruct (PyStr.startswith pat (String c s)) eqn:Hp.
    + apply startswith_drop in Hp. exists "", (drop_s (String.length pat) (String c s)).
      by rewrite Hp.
    + destruct (IH _ Hf) as (a & b & ->). by exists (String c a), b.
  - destruct (IH _ Hf) as (a & b & ->). by exists (String c a), b.
Qed.

Lemma replace_go_first a' pat' new : ∀ s skip,
  PyStr.findall_go (String a' pat') skip s ≠ [] →
  ∃ pre rest, PyStr.replace_go (String a' pat') new skip s = pre +:+ new +:+ rest.
Proof.
  induction s as [|c s IH]; intros skip Hf; [done|].
  destruct skip as [|k]; cbn [PyStr.findall_go PyStr.replace_go] in *;
    [|by apply IH].
  destruct (PyStr.startswith (String a' pat') (String c s)).
  - by exists "", (PyStr.replace_go (String a' pat') new
                     (String.length (String a' pat') - 1) s).
  - destruct (IH _ Hf) as (pre & rest & ->). by exists (String c pre), rest.
Qed.

Lemma replace_first pat new s :
  pat ≠ "" → PyStr.findall pat s ≠ [] →
  ∃ pre rest, PyStr.replace pat new s = pre +:+ new +:+ rest.
Proof.
  destruct pat as [|a' pat']; [done|]. intros _ Hf.
  by apply (replace_go_first a' pat' new s 0).
Qed.

(** After the source list has been pasted behind the anchor, the
    destination list holds every line of it, and the prefix line if the
    source list has it. *)
Lemma pasted_list_holds_source old srcs (p : string) :
  PyStr.findall linepattern old ≠ [] →
  ends_with_newline srcs = true →
  let newfile := PyStr.replace linepattern (linepattern +:+ srcs) old in
  Forall (λ line, line ∈ PyStr.readlines newfile) (PyStr.readlines srcs) ∧
  (p ≠ "" → PyStr.findall p srcs ≠ [] → PyStr.findall p newfile ≠ []).
Proof.
  intros Hanchor [body ->]%ends_with_newline_split newfile.
  destruct (replace_first linepattern (linepattern +:+ body +:+ PyStr.nl) old)
    as (pre & rest & Hnew); [done..|].
  change (newfile = pre +:+ (linepattern +:+ body +:+ PyStr.nl) +:+ rest) in Hnew.
  split.
  - assert (newfile = ((pre +:+ "RFNOC_OOT_SRCS = \") +:+ PyStr.nl)
                      +:+ ((body +:+ PyStr.nl) +:+ rest)) as ->.
    { rewrite Hnew. unfold linepattern. by rewrite !app_assoc_s. }
    rewrite readlines_app, readlines_app.
    apply Forall_forall. intros line Hline.
    apply elem_of_app. right. apply elem_of_app. by left.
  - intros Hp Hfound. destruct p as [|a' p']; [done|].
    apply occurrence_findall in Hfound as (a & b & Hsplit).
    assert (newfile = (pre +:+ linepattern +:+ a) +:+ String a' p' +:+ (b +:+ rest))
      as ->.
    { rewrite Hnew, Hsplit. by rewrite !app_assoc_s. }
    apply findall_occurrence.
Qed.

(** X17. A first merge into a destination list that holds the anchor
    but not the directory's prefix line pastes the source list behind
    the anchor; if the source list ends with a newline and holds the
    prefix line, a second merge changes no file. *)
Theorem merge_second_run_changes_nothing (os : OS) (args : Args) (top d : string)
    (w : World) (old srcs : string) :
  device_dict (PyStr.lower (device args)) = Ret top →
  include_dir args = Some [d] →
  (∀ files, glob os files (d +:+ "*.v") ≠ []) →
  oot_srcs_file d ≠ dest_srcs_file os top →
  fs w !! dest_srcs_file os top = Some old →
  fs w !! oot_srcs_file d = Some srcs →
  PyStr.findall (prefixpattern d) old = [] →
  PyStr.findall linepattern old ≠ [] →
  PyStr.findall (prefixpattern d) srcs ≠ [] →
  ends_with_newline srcs = true →
  ∃ w1 w2,
    append_item_into_file os args w = (Ret (), w1) ∧
    fs w1 !! dest_srcs_file os top
    = Some (PyStr.replace linepattern (linepattern +:+ srcs) old) ∧
    append_item_into_file os args w1 = (Ret (), w2) ∧
    fs w2 = fs w1.
Proof.
  intros Hdev Hinc Hg Hne Hold Hsrcs Hprefix Hanchor Hhas Hnl.
  destruct (pasted_list_holds_source old srcs (prefixpattern d) Hanchor Hnl)
    as [Hlines Hfound].
  set (newfile := PyStr.replace linepattern (linepattern +:+ srcs) old) in *.
  set (w1 := written (dest_srcs_file os top) newfile
               (say ["Verilog sources found!"] w)).
  exists w1, (say ["Verilog sources found!"] w1).
  rewrite !(append_item_into_file_dirs _ _ _ _ _ Hdev Hinc).
  split; [|split; [|split]].
  - rewrite (for_include_dirs_anchor _ _ _ _ _ _ srcs (Hg _) Hold Hsrcs Hprefix Hanchor).
    by rewrite join_readlines.
  - apply lookup_insert_eq.
  - rewrite (for_include_dirs_present os top d [] w1 newfile srcs); [done|..].
    + apply Hg.
    + apply lookup_insert_eq.
    + simpl. by rewrite lookup_insert_ne.
    + by apply Hfound.
    + done.
  - done.
Qed.

Lemma merge_second_run_changes_nothing_witness :
  let w := mk_world [(dest_x, dest_fresh); ("oot/Makefile.srcs", oot_prefixed)]
             "/home/user" in
  ∃ w1 w2,
    append_item_into_file os_x (args_merge "oot/") w = (Ret (), w1) ∧
    fs w1 !! dest_srcs_file os_x "x300"
    = Some (PyStr.replace linepattern (linepattern +:+ oot_prefixed) dest_fresh) ∧
    append_item_into_file os_x (args_merge "oot/") w1 = (Ret (), w2) ∧
    fs w2 = fs w1.
Proof.
  intros w.
  apply (merge_second_run_changes_nothing os_x (args_merge "oot/") "x300" "oot/"
           w dest_fresh oot_prefixed).
  - vm_compute. reflexivity.
  - reflexivity.
  - intros files. vm_compute. discriminate.
  - vm_compute. discriminate.
  - vm_compute. reflexivity.
  - vm_compute. reflexivity.
  - vm_compute. reflexivity.
  - vm_compute. discriminate.
  - vm_compute. discriminate.
  - vm_compute. reflexivity.
Defined.

(** ** The whole script *)

Lemma append_item_into_file_none os args top w :
  device_dict (PyStr.lower (device args)) = Ret top →
  include_dir args = None →
  append_item_into_file os args w = (Ret (), w).
Proof.
  intros Hdev Hinc. unfold append_item_into_file. rewrite Hdev, Hinc.
  by unfold mbind, M_bind, lift.
Qed.

Lemma script_exits os args w status w' :
  main os args w = (Ret status, w') → script os args w = (Exit status, w').
Proof. intros Hmain. unfold script. by rewrite (bind_ret _ _ _ _ _ Hmain). Qed.

(** X18. With [-o] naming a file that is already there, an accepted
    block list, a known device and no include directory, the script
    ends with exit code 0 after replacing that file by the rendered
    text: no other file changes, no build command is run and the
    working directory is kept. *)
Theorem script_only_generates (os : OS) (args : Args) (w : World)
    (top out : string) :
  (1 ≤ length (blocks args))%nat →
  Z.of_nat (length (blocks args)) ≤ max_num_blocks args →
  device_dict (PyStr.lower (device args)) = Ret top →
  include_dir args = None →
  outfile args = Some out →
  is_Some (fs w !! out) →
  ∃ w',
    script os args w = (Exit 0, w') ∧
    fs w' = <[out := value_of "" (create_vfiles args w)]> (fs w) ∧
    cwd w' = cwd w.
Proof.
  intros Hmin Hmax Hdev Hinc Hout _. eexists. split.
  - apply script_exits. unfold main.
    erewrite bind_ret; [|by apply create_vfiles_rendered].
    erewrite bind_ret; [|by apply file_generator_known].
    erewrite bind_ret; [|by eapply append_item_into_file_none].
    rewrite Hout. by erewrite bind_ret; [|apply print_say].
  - unfold value_of. by rewrite create_vfiles_rendered.
Qed.

Lemma script_only_generates_witness :
  let w := mk_world [("out.v", "previous text")] "/home/user" in
  ∃ w',
    script os_x (args_one true) w = (Exit 0, w') ∧
    fs w' = <["out.v" := value_of "" (create_vfiles (args_one true) w)]> (fs w) ∧
    cwd w' = cwd w.
Proof.
  intros w. apply (script_only_generates os_x (args_one true) w "x300" "out.v").
  - simpl. lia.
  - simpl. lia.
  - vm_compute. reflexivity.
  - reflexivity.
  - reflexivity.
  - vm_compute. eexists. reflexivity.
Defined.

(** X19. Without [-o], with an accepted block list, a known device, a
    target that resolves, no include directory and an existing build
    directory, the script writes the rendered text to
    [top/<dir>/rfnoc_ce_auto_inst_<device>.v], runs the build command on
    these files in the build directory, and passes the value of
    [os.system] to [exit]. *)
Theorem script_generates_and_builds (os : OS) (args : Args) (w : World)
    (top trgt : string) :
  (1 ≤ length (blocks args))%nat →
  Z.of_nat (length (blocks args)) ≤ max_num_blocks args →
  device_dict (PyStr.lower (device args)) = Ret top →
  dtarget args = Ret trgt →
  include_dir args = None →
  outfile args = None →
  let build_dir := PyStr.path_join (scriptpath os) [".."; ".."; "top"; top] in
  (∀ files, isdir os files build_dir = true) →
  let files := <[scriptpath os +:+ "/../../top/" +:+ top
                 +:+ "/rfnoc_ce_auto_inst_" +:+ device args +:+ ".v"
                 := value_of "" (create_vfiles args w)]> (fs w) in
  let make_cmd := "source ./setupenv.sh && make " +:+ trgt
                  +:+ (if GUI args then " GUI=1" else "") in
  ∃ w',
    script os args w = (Exit (system os files build_dir make_cmd).1, w') ∧
    fs w' = (system os files build_dir make_cmd).2.
Proof.
  intros Hmin Hmax Hdev Htrgt Hinc Hout build_dir Hdir files make_cmd.
  eexists. split.
  - apply script_exits. unfold main.
    erewrite bind_ret; [|by apply create_vfiles_rendered].
    erewrite bind_ret; [|by apply file_generator_known].
    erewrite bind_ret; [|by eapply append_item_into_file_none].
    rewrite Hout. erewrite (build_runs os args _ top trgt Hdev Htrgt); [|apply Hdir].
    unfold files, value_of. rewrite create_vfiles_rendered by done. done.
  - unfold files, value_of. by rewrite create_vfiles_rendered.
Qed.

Lemma script_generates_and_builds_witness :
  let w := mk_world [] "/home/user" in
  let build_dir := "/opt/fpga/usrp3/tools/scripts/../../top/x300" in
  let files := <["/opt/fpga/usrp3/tools/scripts/../../top/x300/rfnoc_ce_auto_inst_x310.v"
                 := value_of "" (create_vfiles args_build w)]> (fs w) in
  let make_cmd := "source ./setupenv.sh && make X310_RFNOC_HG GUI=1" in
  ∃ w',
    script os_x args_build w = (Exit (system os_x files build_dir make_cmd).1, w') ∧
    fs w' = (system os_x files build_dir make_cmd).2.
Proof.
  intros w build_dir files make_cmd.
  apply (script_generates_and_builds os_x args_build w "x300" "X310_RFNOC_HG").
  - simpl. lia.
  - simpl. lia.
  - vm_compute. reflexivity.
  - vm_compute. reflexivity.
  - reflexivity.
  - reflexivity.
  - intros ?. reflexivity.
Defined.

(** X20. With an accepted block list and a device name that is not
    [x300], [x310], [e300] or [e310] after lower-casing, the script
    renders the text and then ends with [KeyError]: no file is written
    and the working directory is kept.  For an ASCII name the key is the
    lower-cased name. *)
Theorem script_unknown_device (os : OS) (args : Args) (w : World) :
  (1 ≤ length (blocks args))%nat →
  Z.of_nat (length (blocks args)) ≤ max_num_blocks args →
  PyStr.lower (device args) ∉ ["x300"; "x310"; "e300"; "e310"] →
  ∃ key w',
    script os args w = (Raise (KeyError key), w') ∧
    fs w' = fs w ∧
    cwd w' = cwd w ∧
    (ascii_only (device args) = true → key = PyStr.lower (device args)).
Proof.
  intros Hmin Hmax Hdev. eexists _, _. split.
  - unfold script, main. apply bind_raise.
    erewrite bind_ret; [|by apply create_vfiles_rendered].
    apply bind_raise. unfold file_generator, get_scriptpath.
    rewrite (device_dict_unknown _ Hdev).
    unfold mbind, M_bind, mret, M_ret, lift. by rewrite print_say.
  - done.
Qed.

Lemma script_unknown_device_witness :
  let args := args_device "N210" None None false in
  let w := mk_world [] "/home/user" in
  ∃ key w',
    script os_x args w = (Raise (KeyError key), w') ∧
    fs w' = fs w ∧
    cwd w' = cwd w ∧
    (ascii_only (device args) = true → key = PyStr.lower (device args)).
Proof.
  intros args w. apply (script_unknown_device os_x args w).
  - simpl. lia.
  - simpl. lia.
  - apply (bool_decide_unpack _); vm_compute; exact I.
Defined.

(** X21. With an accepted block list, a known device, the output file
    already there and a first include directory without Verilog files,
    the script ends with exit code 0 from inside the merge, after the
    output file has been replaced by the rendered text: it is the only
    file changed. *)
Theorem script_writes_before_checking_includes (os : OS) (args : Args) (w : World)
    (top d : string) (rest : list string) :
  (1 ≤ length (blocks args))%nat →
  Z.of_nat (length (blocks args)) ≤ max_num_blocks args →
  device_dict (PyStr.lower (device args)) = Ret top →
  include_dir args = Some (d :: rest) →
  (∀ files, glob os files (d +:+ "*.v") = []) →
  let path := match outfile args with
              | Some out => out
              | None => scriptpath os +:+ "/../../top/" +:+ top
                        +:+ "/rfnoc_ce_auto_inst_" +:+ device args +:+ ".v"
              end in
  is_Some (fs w !! path) →
  ∃ w',
    script os args w = (Exit 0, w') ∧
    fs w' = <[path := value_of "" (create_vfiles args w)]> (fs w).
Proof.
  intros Hmin Hmax Hdev Hinc Hg path _. eexists. split.
  - unfold script, main. apply bind_exit.
    erewrite bind_ret; [|by apply create_vfiles_rendered].
    erewrite bind_ret; [|by apply file_generator_known].
    apply bind_exit.
    by apply (append_item_into_file_empty_directory os args top d rest).
  - unfold value_of. by rewrite create_vfiles_rendered.
Qed.

Lemma script_writes_before_checking_includes_witness :
  let w := mk_world [("out.v", "previous text")] "/home/user" in
  ∃ w',
    script os_bare (args_merge "empty/") w = (Exit 0, w') ∧
    fs w' = <["out.v" := value_of "" (create_vfiles (args_merge "empty/") w)]> (fs w).
Proof.
  intros w.
  apply (script_writes_before_checking_includes os_bare (args_merge "empty/") w
           "x300" "empty/" []).
  - simpl. lia.
  - simpl. lia.
  - vm_compute. reflexivity.
  - reflexivity.
  - intros ?. reflexivity.
  - vm_compute. eexists. reflexivity.
Defined.

(** ** The prefix branch of the merge *)

Lemma for_include_dirs_prefix os target_dir d rest w old srcs :
  glob os (fs w) (d +:+ "*.v") ≠ [] →
  fs w !! dest_srcs_file os target_dir = Some old →
  fs w !! oot_srcs_file d = Some srcs →
  PyStr.findall (prefixpattern d) old ≠ [] →
  for_include_dirs os target_dir (d :: rest) w
  = for_include_dirs os target_dir rest
      (written (dest_srcs_file os target_dir)
         (PyStr.replace (prefixpattern d)
            (prefixpattern d
             +:+ PyStr.join (filter (λ item, item ∉ PyStr.readlines old)
                               (PyStr.readlines srcs))) old)
         (say ["Verilog sources found!"] w)).
Proof.
  intros Hg Hold Hsrcs Hprefix. cbn [for_include_dirs].
  rewrite (bind_ret _ _ _ _ _ (checkdir_v_found os d w Hg)).
  rewrite (bind_ret _ _ _ old _
             (read_file_present _ _ (say ["Verilog sources found!"] w) Hold)).
  rewrite (last_findall _ _ Hprefix).
  destruct (PyStr.findall (prefixpattern d) old) eqn:Hf; [done|]. simpl.
  unfold compare.
  erewrite bind_ret;
    [|erewrite bind_ret; [|by apply read_file_present];
      erewrite bind_ret; [|by apply read_file_present]; done].
  by erewrite bind_ret.
Qed.

(** X22. When the destination list holds the directory's prefix line
    exactly once, the merge pastes right after it the lines of the
    source list that are not yet lines of the destination list, in
    their order, and keeps the text before and after. *)
Theorem merge_pastes_missing_lines_after_prefix (os : OS) (args : Args)
    (top d : string) (w : World) (old srcs : string) :
  device_dict (PyStr.lower (device args)) = Ret top →
  include_dir args = Some [d] →
  glob os (fs w) (d +:+ "*.v") ≠ [] →
  fs w !! dest_srcs_file os top = Some old →
  fs w !! oot_srcs_file d = Some srcs →
  PyStr.findall (prefixpattern d) old = [prefixpattern d] →
  ∃ pre post w',
    old = pre +:+ prefixpattern d +:+ post ∧
    append_item_into_file os args w = (Ret (), w') ∧
    fs w' !! dest_srcs_file os top
    = Some (pre
            +:+ (prefixpattern d
                 +:+ PyStr.join (filter (λ line, line ∉ PyStr.readlines old)
                                   (PyStr.readlines srcs)))
            +:+ post).
Proof.
  intros Hdev Hinc Hg Hold Hsrcs Hprefix.
  destruct (replace_single (prefixpattern d)
              (prefixpattern d
               +:+ PyStr.join (filter (λ line, line ∉ PyStr.readlines old)
                                 (PyStr.readlines srcs))) old)
    as (pre & post & Hsplit & Hrepl); [done..|].
  eexists pre, post, _. split; [done|].
  rewrite (append_item_into_file_dirs _ _ _ _ _ Hdev Hinc).
  rewrite (for_include_dirs_prefix _ _ _ _ _ _ srcs Hg Hold Hsrcs)
    by (by rewrite Hprefix).
  split; [done|]. simpl. by rewrite lookup_insert_eq, Hrepl.
Qed.

Lemma merge_pastes_missing_lines_after_prefix_witness :
  let old := dest_patched_prefixed in
  let srcs := oot_prefixed +:+ "noc_block_mixer.v \
" in
  let w := mk_world [(dest_x, old); ("oot/Makefile.srcs", srcs)] "/home/user" in
  ∃ pre post w',
    old = pre +:+ prefixpattern "oot/" +:+ post ∧
    append_item_into_file os_x (args_merge "oot/") w = (Ret (), w') ∧
    fs w' !! dest_srcs_file os_x "x300"
    = Some (pre
            +:+ (prefixpattern "oot/"
                 +:+ PyStr.join (filter (λ line, line ∉ PyStr.readlines old)
                                   (PyStr.readlines srcs)))
            +:+ post).
Proof.
  intros old srcs w.
  apply (merge_pastes_missing_lines_after_prefix os_x (args_merge "oot/") "x300"
           "oot/" w old srcs).
  - vm_compute. reflexivity.
  - reflexivity.
  - vm_compute. discriminate.
  - vm_compute. reflexivity.
  - vm_compute. reflexivity.
  - vm_compute. reflexivity.
Defined.

(** ** The three paths under [top] *)





